(** * vitest-teamcity-reporter: the Printer of [src/app/printer.ts]

    A shallow embedding of the [Printer] class: the tree walker that turns a
    file's task tree into message templates, the per-file buffer with its
    flush gate ([handeUpdate]), the per-test console-log buffer, the error
    fallback chain ([getTestErrors]) and the run summary ([writeSummary]).

    Task objects are JavaScript objects whose [result] field the test runner
    assigns while the run proceeds, and the producer closures built by
    [handleTest] read that field only when they are called.  The embedding
    therefore keeps the immutable part of a task (id, name, mode, children,
    parent links) in the tree and the mutable [result] fields in a store keyed
    by task id; every function that reads [x.result] takes the store.  A
    task object is identified with its id, as the printer's own maps and the
    runner's notifications do; a reference to a suite or file object is the
    id of that object. *)

From stdpp Require Import gmap strings list fin_maps pretty.

Open Scope string_scope.
Open Scope list_scope.

#[local] Set Warnings "-register-all".

(** ** Types declared by the vitest package *)

(** [RunMode = 'run' | 'skip' | 'only' | 'todo']. *)
Inductive RunMode := ModeRun | ModeSkip | ModeOnly | ModeTodo.

(** [TaskState = RunMode | 'pass' | 'fail']. *)
Inductive TaskState :=
  StateRun | StateSkip | StateOnly | StateTodo | StatePass | StateFail.

#[global] Instance RunMode_eq_dec : EqDecision RunMode.
Proof. solve_decision. Defined.
#[global] Instance TaskState_eq_dec : EqDecision TaskState.
Proof. solve_decision. Defined.

(** [ErrorWithDiff]: of an error the printer reads [stack] (optional in the
    declaration of [Error]); [message] is what the message builders show. *)
Record ErrorWithDiff := {
  error_message : string;
  error_stack : option string
}.

(** [number]: durations are only handed from the result to the message
    builder, no arithmetic is done on them. *)
Abbreviation number := Z (only parsing).

(** [TaskResult]: [state] is required, [duration?] and [errors?] optional. *)
Record TaskResult := {
  result_state : TaskState;
  result_duration : option number;
  result_errors : option (list ErrorWithDiff)
}.

(** [UserConsoleLog]: the printer reads [type] and [content]. *)
Inductive LogType := Stdout | Stderr.

Record UserConsoleLog := {
  log_type : LogType;
  log_content : string
}.

(** A [Test]: [suite] is required by the declaration, [file?] is optional.
    Both are references to task objects, kept here as the id of the object
    referred to. *)
Record Test := {
  test_id : string;
  test_name : string;
  test_mode : RunMode;
  test_suite : string;
  test_file : option string
}.

(** A task of type ['custom']. *)
Record Custom := {
  custom_id : string;
  custom_name : string;
  custom_mode : RunMode
}.

(** The fields of a [Suite] other than its children; [file?] is optional. *)
Record Suite := {
  suite_id : string;
  suite_name : string;
  suite_mode : RunMode;
  suite_file : option string
}.

(** [Task = Test | Suite | TaskCustom | File], discriminated by [type]
    (['test'], ['suite'], ['custom']; a [File] is a [Suite]). *)
Inductive Task :=
| TaskTest (t : Test)
| TaskCustom (c : Custom)
| TaskSuite (s : Suite) (tasks : list Task).

(** A [File] is a [Suite] (its [type] is ['suite']) with its root tasks. *)
Record File := {
  file_suite : Suite;
  file_tasks : list Task
}.

Definition file_id (f : File) : string := suite_id (file_suite f).
Definition file_name (f : File) : string := suite_name (file_suite f).
Definition file_task (f : File) : Task := TaskSuite (file_suite f) (file_tasks f).

(** The [result] field of every task object, by task id; no entry is
    [undefined]. *)
Abbreviation Results := (gmap string TaskResult) (only parsing).

(** [TaskResultPack = [id, result | undefined]]. *)
Abbreviation TaskResultPack := (string * option TaskResult)%type (only parsing).

(** [x.result?.errors] and [x.result?.duration] of the task object [id]. *)
Definition result_errors_of (results : Results) (id : string)
  : option (list ErrorWithDiff) :=
  results !! id ≫= result_errors.

Definition result_duration_of (results : Results) (id : string) : option number :=
  results !! id ≫= result_duration.

(** ** JavaScript operators *)

(** [a ?? b] with a last operand that is never nullish. *)
Definition nullish {A} (a : option A) (b : A) : A :=
  match a with Some v => v | None => b end.

(** [a ?? b] between two operands that may both be nullish. *)
Definition nullish_opt {A} (a b : option A) : option A :=
  match a with Some v => Some v | None => b end.

Infix "??" := nullish (at level 62, left associativity).
Infix "?|" := nullish_opt (at level 61, left associativity).

(** [Boolean(s)] of a string: the empty string is the one falsy string. *)
Definition truthy (s : string) : Prop := s ≠ "".

#[global] Instance truthy_dec s : Decision (truthy s).
Proof. unfold truthy. apply _. Defined.

(** ** Completion of a call: a value, or a thrown exception *)

Inductive Exception := TypeError (reading : string).

Inductive Completion (A : Type) :=
| Normal (a : A)
| Throw (e : Exception).
Arguments Normal {A} a.
Arguments Throw {A} e.

Definition bind {A B} (c : Completion A) (k : A → Completion B) : Completion B :=
  match c with
  | Normal a => k a
  | Throw e => Throw e
  end.

Notation "'let!' x := c 'in' k" := (bind c (fun x => k))
  (at level 10, x name, c at level 100, k at level 200).

(** [o!.field]: reading a property through a non-null assertion throws a
    [TypeError] when [o] is [undefined]. *)
Definition non_null {A} (what : string) (o : option A) : Completion A :=
  match o with
  | Some a => Normal a
  | None => Throw (TypeError what)
  end.

(** [array.flatMap(f)] where [f] may throw: the results are concatenated in
    order, the first exception ends the call. *)
Definition flatMapM {A B} (f : A → Completion (list B)) : list A → Completion (list B) :=
  fix go (l : list A) :=
    match l with
    | [] => Normal []
    | x :: l' =>
        let! here := f x in
        let! rest := go l' in
        Normal (here ++ rest)
    end.

(** ** Collaborators imported by the printer

    [escape], [SuitMessage], [TestMessage] and [MissingResultError] are
    imported from sibling modules; the printer only composes their results.
    They are taken as an interface: a message builder's method is a function
    of the constructor's arguments and of its own. *)
Class Collaborators := {
  escape : string → string;
  SuitMessage_started : string → string → string;
  SuitMessage_finished : string → string → string;
  TestMessage_ignored : Test → string;
  TestMessage_started : Test → string;
  TestMessage_log : Test → LogType → string → string;
  TestMessage_fail : Test → ErrorWithDiff → string;
  TestMessage_finished : Test → number → string;
  MissingResultError : Test → ErrorWithDiff
}.

(** Every line the message builders produce is a non-empty string. *)
Class TruthyMessages `{Collaborators} : Prop := {
  started_truthy t : truthy (TestMessage_started t);
  log_truthy t ty c : truthy (TestMessage_log t ty c);
  fail_truthy t e : truthy (TestMessage_fail t e);
  finished_truthy t d : truthy (TestMessage_finished t d)
}.

(** ** The printer's state *)

(** [type PotentialMessage = string | (() => string | string[])].  The one
    place that builds a function is [handleTest]; the closure captures the
    test (and the [TestMessage] made from it), so it is kept as the test it
    is bound to and run by [callProducer]. *)
Inductive PotentialMessage :=
| Literal (s : string)
| Producer (test : Test).

(** The two private maps, and the lines handed to [logger.console.info] so
    far, oldest first. *)
Record Printer := {
  fileMessageMap : gmap string (list PotentialMessage);
  testConsoleMap : gmap string (list UserConsoleLog);
  console_info : list string
}.

Definition new_Printer : Printer :=
  {| fileMessageMap := ∅; testConsoleMap := ∅; console_info := [] |}.

Section printer.
Context `{Collaborators}.

(** [getTestErrors]: the chain of [??] over the test's, its suite's and
    its file's result errors. *)
Definition getTestErrors (results : Results) (test : Test) : list ErrorWithDiff :=
  result_errors_of results (test_id test)
    ?| result_errors_of results (test_suite test)
    ?| (test_file test ≫= result_errors_of results)
    ?? [MissingResultError test].

(** [const fail = (test.result == null) || test.result.state === 'fail']. *)
Definition test_fail (results : Results) (test : Test) : bool :=
  match results !! test_id test with
  | None => true
  | Some r => bool_decide (result_state r = StateFail)
  end.

(** [const logs = this.testConsoleMap.get(test.id) ?? []]. *)
Definition test_logs (p : Printer) (test : Test) : list UserConsoleLog :=
  testConsoleMap p !! test_id test ?? [].

(** The function returned by [handleTest] for a test that is not skipped,
    called when the file is flushed. *)
Definition callProducer (results : Results) (p : Printer) (test : Test) : list string :=
  let fail := test_fail results test in
  let logs := test_logs p test in
  let logsMessages :=
    map (λ log, TestMessage_log test (log_type log) (log_content log)) logs in
  let filedMessages :=
    if fail then map (TestMessage_fail test) (getTestErrors results test) else [] in
  filter truthy
    ([TestMessage_started test]
       ++ logsMessages
       ++ filedMessages
       ++ [TestMessage_finished test
             (result_duration_of results (test_id test) ?? 0%Z)]).

Definition handleTest (test : Test) : PotentialMessage :=
  if decide (test_mode test = ModeSkip)
  then Literal (TestMessage_ignored test)
  else Producer test.

(** [handleTask], with [handleSuite] inlined for the recursion; a test's
    single message is what [flatMap] keeps as one element. *)
Fixpoint handleTask (task : Task) : Completion (list PotentialMessage) :=
  match task with
  | TaskTest t => Normal [handleTest t]
  | TaskSuite suite tasks =>
      if decide (suite_mode suite = ModeRun) then
        let! fileId := non_null "suite.file" (suite_file suite) in
        let! inner := flatMapM handleTask tasks in
        Normal ([Literal (SuitMessage_started fileId (escape (suite_name suite)))]
                  ++ inner
                  ++ [Literal (SuitMessage_finished fileId (escape (suite_name suite)))])
      else Normal []
  | TaskCustom _ => Normal []
  end.

Definition handleSuite (suite : Suite) (tasks : list Task)
  : Completion (list PotentialMessage) :=
  let! fileId := non_null "suite.file" (suite_file suite) in
  let! inner := flatMapM handleTask tasks in
  Normal ([Literal (SuitMessage_started fileId (escape (suite_name suite)))]
            ++ inner
            ++ [Literal (SuitMessage_finished fileId (escape (suite_name suite)))]).

(** [addFile]: the messages are built first, so an exception leaves the
    map as it was. *)
Definition addFile (file : File) (p : Printer) : Completion Printer :=
  let! inner := flatMapM handleTask (file_tasks file) in
  let messages :=
    [Literal (SuitMessage_started (file_id file) (escape (file_name file)))]
      ++ inner
      ++ [Literal (SuitMessage_finished (file_id file) (escape (file_name file)))] in
  Normal {| fileMessageMap := <[file_id file := messages]> (fileMessageMap p);
            testConsoleMap := testConsoleMap p;
            console_info := console_info p |}.

(** [addTestConsoleLog]: push on the test's array, or start one. *)
Definition addTestConsoleLog (id : string) (log : UserConsoleLog) (p : Printer) : Printer :=
  {| fileMessageMap := fileMessageMap p;
     testConsoleMap :=
       match testConsoleMap p !! id with
       | Some messages => <[id := messages ++ [log]]> (testConsoleMap p)
       | None => <[id := [log]]> (testConsoleMap p)
       end;
     console_info := console_info p |}.

(** The callback of [messages.flatMap] in [handeUpdate]. *)
Definition evalMessage (results : Results) (p : Printer) (message : PotentialMessage)
  : list string :=
  match message with
  | Literal s => [s]
  | Producer test => callProducer results p test
  end.

(** [handeUpdate]: [results] is the state of the task objects when the
    notification is handled. *)
Definition handeUpdate (results : Results) (pack : TaskResultPack) (p : Printer) : Printer :=
  match fileMessageMap p !! pack.1, pack.2 with
  | Some messages, Some result =>
      if decide (result_state result ≠ StateRun) then
        {| fileMessageMap := delete pack.1 (fileMessageMap p);
           testConsoleMap := testConsoleMap p;
           console_info :=
             console_info p ++ flat_map (evalMessage results p) messages |}
      else p
  | _, _ => p
  end.

End printer.

(** ** The run summary *)

(** [Nullable<Arrayable<T>>]: [null]/[undefined], one value, or an array. *)
Inductive Arrayable (T : Type) :=
| Nullish
| One (x : T)
| Many (l : list T).
Arguments Nullish {T}.
Arguments One {T} x.
Arguments Many {T} l.

Definition toArray {T} (array : Arrayable T) : list T :=
  match array with
  | Nullish => []
  | Many l => l
  | One x => [x]
  end.

(** The fields every task has. *)
Definition task_id (task : Task) : string :=
  match task with
  | TaskTest t => test_id t
  | TaskCustom c => custom_id c
  | TaskSuite s _ => suite_id s
  end.

Definition task_name (task : Task) : string :=
  match task with
  | TaskTest t => test_name t
  | TaskCustom c => custom_name c
  | TaskSuite s _ => suite_name s
  end.

(** The callback of [flatMap] in [getSuites]; its inner call
    [this.getSuites(s.tasks)] is on an array. *)
Fixpoint getSuites_of (s : Task) : list Task :=
  match s with
  | TaskSuite _ tasks => s :: flat_map getSuites_of tasks
  | _ => []
  end.

Definition getSuites (suites : Arrayable Task) : list Task :=
  flat_map getSuites_of (toArray suites).

Definition isAtomTest (s : Task) : bool :=
  match s with
  | TaskTest _ | TaskCustom _ => true
  | TaskSuite _ _ => false
  end.

(** The body of the outer loop of [getTests]; its inner call
    [this.getTests(task)] is on one task. *)
Fixpoint getTests_of (s : Task) : list Task :=
  if isAtomTest s then [s]
  else
    match s with
    | TaskSuite _ tasks =>
        flat_map (λ task, if isAtomTest task then [task] else getTests_of task) tasks
    | _ => []
    end.

Definition getTests (files : Arrayable Task) : list Task :=
  flat_map getTests_of (toArray files).

(** An entry of [suiteErrors], declared [{ file: string, error: string }].
    The code assigns [error.stack] to [error], and [stack] is optional, so
    the value stored can be [undefined]: it is kept as an option to show
    what the code stores. *)
Record SuiteError := {
  suiteError_file : string;
  suiteError_error : option string
}.

Record TestRunSummary := {
  failedSuitesCount : nat;
  totalSuitesCount : nat;
  failedTestsCount : nat;
  totalTestsCount : nat;
  suiteErrors : list SuiteError
}.

(** [i.result?.errors] is truthy: the array is there, empty or not. *)
Definition has_errors (results : Results) (i : Task) : Prop :=
  is_Some (result_errors_of results (task_id i)).

#[global] Instance has_errors_dec results i : Decision (has_errors results i).
Proof. unfold has_errors. apply _. Defined.

(** [i.result?.state === 'fail']. *)
Definition state_is_fail (results : Results) (i : Task) : Prop :=
  result_state <$> results !! task_id i = Some StateFail.

#[global] Instance state_is_fail_dec results i : Decision (state_is_fail results i).
Proof. unfold state_is_fail. apply _. Defined.

(** [writeSummary], up to the summary it hands over.  [files] is a free
    variable of the method in the source and is taken as an argument. *)
Definition writeSummary (results : Results) (files : Arrayable Task) : TestRunSummary :=
  let suites := getSuites files in
  let tests := getTests files in
  let failedSuites := filter (has_errors results) suites in
  let failedTests := filter (state_is_fail results) tests in
  {| failedSuitesCount := length failedSuites;
     totalSuitesCount := length suites;
     failedTestsCount := length failedTests;
     totalTestsCount := length tests;
     suiteErrors :=
       if decide (0 < length failedSuites) then
         flat_map
           (λ suite,
              map (λ error, {| suiteError_file := task_name suite;
                               suiteError_error := error_stack error |})
                  (result_errors_of results (task_id suite) ?? []))
           failedSuites
       else [] |}.

(** ** The events the reporter receives *)

(** Modelled from the spec: the reporter class that forwards the runner's
    events to the printer is not among the sources.  Per the spec's external
    interfaces, [onConsoleLog(testId, event)] records a log for a test and
    [onTaskStateChange(taskId, result|absent)] reports a state transition of
    a task, whose result record the runner has assigned to the task by
    then. *)
Inductive Event :=
| OnConsoleLog (testId : string) (event : UserConsoleLog)
| OnTaskStateChange (taskId : string) (result : option TaskResult).

(** The task objects' results together with the printer. *)
Record Run := {
  run_results : Results;
  run_printer : Printer
}.

(** [task.result = result] for the task object [id]. *)
Definition assign_result (id : string) (result : option TaskResult) (results : Results)
  : Results :=
  match result with
  | Some r => <[id := r]> results
  | None => delete id results
  end.

Section events.
Context `{Collaborators}.

(** Modelled from the spec: one event delivered to the reporter. *)
Definition deliver (w : Run) (e : Event) : Run :=
  match e with
  | OnConsoleLog testId event =>
      {| run_results := run_results w;
         run_printer := addTestConsoleLog testId event (run_printer w) |}
  | OnTaskStateChange taskId result =>
      let results := assign_result taskId result (run_results w) in
      {| run_results := results;
         run_printer := handeUpdate results (taskId, result) (run_printer w) |}
  end.

Definition deliver_all (w : Run) (events : list Event) : Run :=
  foldl deliver w events.

End events.

(** The console-log events of a run, and its state changes, each in
    arrival order. *)
Definition logs_of (events : list Event) : list (string * UserConsoleLog) :=
  flat_map (λ e, match e with OnConsoleLog id l => [(id, l)] | _ => [] end) events.

Definition changes_of (events : list Event) : list (string * option TaskResult) :=
  flat_map (λ e, match e with OnTaskStateChange id r => [(id, r)] | _ => [] end) events.

(** Two runs that differ only in how console logs and state changes are
    interleaved. *)
Definition same_up_to_interleaving (es1 es2 : list Event) : Prop :=
  logs_of es1 = logs_of es2 ∧ changes_of es1 = changes_of es2.

(** A notification is terminal when it carries a result that is no longer
    running. *)
Definition terminal (result : option TaskResult) : Prop :=
  match result with
  | Some r => result_state r ≠ StateRun
  | None => False
  end.

#[global] Instance terminal_dec result : Decision (terminal result).
Proof. destruct result; simpl; apply _. Defined.

(** No terminal notification for [id] among the events. *)
Definition before_terminal (id : string) (events : list Event) : Prop :=
  Forall (λ e, match e with
               | OnTaskStateChange id' r => id' = id → ¬ terminal r
               | OnConsoleLog _ _ => True
               end) events.

(** ** Definitions that follow the spec's words *)

(** The spec's outcome of a test. *)
Inductive Outcome := OutcomeSkip | OutcomeFail | OutcomePass.

(** Spec, Result Classifier: skip if the run mode is skip; else fail if no
    result exists yet or the result's state is fail; else pass. *)
Definition classify (results : Results) (test : Test) : Outcome :=
  match test_mode test with
  | ModeSkip => OutcomeSkip
  | _ =>
      match results !! test_id test with
      | None => OutcomeFail
      | Some r =>
          match result_state r with
          | StateFail => OutcomeFail
          | _ => OutcomePass
          end
      end
  end.

(** Every task of a tree, parents before children, children in declared
    order. *)
Fixpoint tasks_of (task : Task) : list Task :=
  task ::
  match task with
  | TaskSuite _ tasks => flat_map tasks_of tasks
  | _ => []
  end.

Definition is_suite (task : Task) : Prop :=
  match task with TaskSuite _ _ => True | _ => False end.

Definition is_leaf (task : Task) : Prop :=
  match task with TaskSuite _ _ => False | _ => True end.

#[global] Instance is_suite_dec task : Decision (is_suite task).
Proof. destruct task; simpl; apply _. Defined.
#[global] Instance is_leaf_dec task : Decision (is_leaf task).
Proof. destruct task; simpl; apply _. Defined.

(** The result of a suite carries at least one error. *)
Definition carries_an_error (results : Results) (task : Task) : Prop :=
  ∃ e es, result_errors_of results (task_id task) = Some (e :: es).

#[global] Instance carries_an_error_dec results task :
  Decision (carries_an_error results task).
Proof.
  unfold carries_an_error.
  destruct (result_errors_of results (task_id task)) as [[|e es]|].
  - right. intros (e & es & Heq). discriminate.
  - left. eauto.
  - right. intros (e & es & Heq). discriminate.
Defined.

Section traversal.
Context `{Collaborators}.

(** The lines of one test when its file is flushed. *)
Definition test_lines (results : Results) (p : Printer) (test : Test) : list string :=
  evalMessage results p (handleTest test).

(** Spec, pre-order traversal of a task tree at flush time: a test gives
    its lines; a suite in run mode gives its started line, then its
    children in declared order, then its finished line; anything else
    gives nothing. *)
Fixpoint preorder (results : Results) (p : Printer) (task : Task)
  : Completion (list string) :=
  match task with
  | TaskTest t => Normal (test_lines results p t)
  | TaskCustom _ => Normal []
  | TaskSuite suite tasks =>
      if decide (suite_mode suite = ModeRun) then
        let! fileId := non_null "suite.file" (suite_file suite) in
        let! children := flatMapM (preorder results p) tasks in
        Normal (SuitMessage_started fileId (escape (suite_name suite))
                  :: children
                  ++ [SuitMessage_finished fileId (escape (suite_name suite))])
      else Normal []
  end.

(** The traversal of a whole file: the file's own bracket around its
    root tasks. *)
Definition preorder_file (results : Results) (p : Printer) (file : File)
  : Completion (list string) :=
  let! children := flatMapM (preorder results p) (file_tasks file) in
  Normal (SuitMessage_started (file_id file) (escape (file_name file))
            :: children
            ++ [SuitMessage_finished (file_id file) (escape (file_name file))]).

(** The messages [addFile] stores for a file. *)
Definition fileMessages (file : File) : Completion (list PotentialMessage) :=
  let! inner := flatMapM handleTask (file_tasks file) in
  Normal ([Literal (SuitMessage_started (file_id file) (escape (file_name file)))]
            ++ inner
            ++ [Literal (SuitMessage_finished (file_id file) (escape (file_name file)))]).

(** The file is pending in the printer with the messages built for it. *)
Definition registered (file : File) (p : Printer) : Prop :=
  ∃ messages,
    fileMessages file = Normal messages
    ∧ fileMessageMap p !! file_id file = Some messages.

(** The walker reaches a test: every suite on the way to it is in run
    mode. *)
Inductive reaches (test : Test) : Task → Prop :=
| reaches_test : reaches test (TaskTest test)
| reaches_suite suite tasks task :
    suite_mode suite = ModeRun →
    task ∈ tasks →
    reaches test task →
    reaches test (TaskSuite suite tasks).

End traversal.

(** ** An instance of the collaborators

    TeamCity service messages in the style of the message builders, to run
    the printer on concrete trees.  Nothing below is proved of this instance
    alone: the theorems hold for every instance. *)
Module Sample.

Definition tc (kind : string) (fields : string) : string :=
  String.append "##teamcity[" (String.append kind (String.append fields "]")).

Definition attr (key value : string) : string :=
  String.append " " (String.append key (String.append "='" (String.append value "'"))).

Definition show_type (ty : LogType) : string :=
  match ty with Stdout => "testStdOut" | Stderr => "testStdErr" end.

#[global] Instance collaborators : Collaborators := {|
  escape := λ s, s;
  SuitMessage_started := λ id name,
    tc "testSuiteStarted" (String.append (attr "flowId" id) (attr "name" name));
  SuitMessage_finished := λ id name,
    tc "testSuiteFinished" (String.append (attr "flowId" id) (attr "name" name));
  TestMessage_ignored := λ t, tc "testIgnored" (attr "name" (test_name t));
  TestMessage_started := λ t, tc "testStarted" (attr "name" (test_name t));
  TestMessage_log := λ t ty content,
    tc (show_type ty) (String.append (attr "name" (test_name t)) (attr "out" content));
  TestMessage_fail := λ t e,
    tc "testFailed"
       (String.append (attr "name" (test_name t)) (attr "message" (error_message e)));
  TestMessage_finished := λ t d,
    tc "testFinished"
       (String.append (attr "name" (test_name t)) (attr "duration" (pretty d)));
  MissingResultError := λ t,
    {| error_message := String.append "Missing result for test " (test_name t);
       error_stack := None |}
|}.

#[global] Instance truthy_messages : TruthyMessages.
Proof. split; intros; unfold truthy; discriminate. Qed.

End Sample.

(** A task the walker passes over: a suite that is not in run mode, or a
    task that is neither a test nor a suite. *)
Definition passed_over (task : Task) : Prop :=
  match task with
  | TaskSuite suite _ => suite_mode suite ≠ ModeRun
  | TaskCustom _ => True
  | TaskTest _ => False
  end.

(** The state a flush of [id] leaves behind: the lines of the messages
    appended to what was logged, the entry gone. *)
Definition flushed `{Collaborators} (results : Results) (id : string)
    (messages : list PotentialMessage) (p : Printer) : Printer :=
  {| fileMessageMap := delete id (fileMessageMap p);
     testConsoleMap := testConsoleMap p;
     console_info := console_info p ++ concat (map (evalMessage results p) messages) |}.

(** The task results after the state changes [changes], oldest first. *)
Definition results_after (changes : list (string * option TaskResult))
    (results : Results) : Results :=
  foldl (λ res change, assign_result change.1 change.2 res) results changes.

(** What [addTestConsoleLog] does to the console-log map. *)
Definition record_log (id : string) (log : UserConsoleLog)
    (m : gmap string (list UserConsoleLog)) : gmap string (list UserConsoleLog) :=
  match m !! id with
  | Some messages => <[id := messages ++ [log]]> m
  | None => <[id := [log]]> m
  end.

(** The console-log map after the logs [logs], oldest first. *)
Definition console_after (logs : list (string * UserConsoleLog))
    (m : gmap string (list UserConsoleLog)) : gmap string (list UserConsoleLog) :=
  foldl (λ m entry, record_log entry.1 entry.2 m) m logs.

(** ** Concrete trees and results used in the examples *)
Module Scenario.

Definition boom : ErrorWithDiff :=
  {| error_message := "boom"; error_stack := Some "Error: boom at a.test.ts:3" |}.

Definition bare : ErrorWithDiff :=
  {| error_message := "hook failed"; error_stack := None |}.

Definition f1_suite : Suite :=
  {| suite_id := "f1"; suite_name := "a.test.ts"; suite_mode := ModeRun;
     suite_file := Some "f1" |}.

Definition s1 : Suite :=
  {| suite_id := "s1"; suite_name := "math"; suite_mode := ModeRun;
     suite_file := Some "f1" |}.

Definition s2 : Suite :=
  {| suite_id := "s2"; suite_name := "later"; suite_mode := ModeSkip;
     suite_file := Some "f1" |}.

Definition t1 : Test :=
  {| test_id := "t1"; test_name := "adds"; test_mode := ModeRun;
     test_suite := "s1"; test_file := Some "f1" |}.

Definition t2 : Test :=
  {| test_id := "t2"; test_name := "divides"; test_mode := ModeSkip;
     test_suite := "s2"; test_file := Some "f1" |}.

Definition t3 : Test :=
  {| test_id := "t3"; test_name := "rounds"; test_mode := ModeTodo;
     test_suite := "s1"; test_file := Some "f1" |}.

Definition c1 : Custom :=
  {| custom_id := "c1"; custom_name := "bench"; custom_mode := ModeRun |}.

Definition hello : UserConsoleLog :=
  {| log_type := Stdout; log_content := "hello" |}.

Definition passed : TaskResult :=
  {| result_state := StatePass; result_duration := Some 5%Z; result_errors := None |}.

Definition running : TaskResult :=
  {| result_state := StateRun; result_duration := None; result_errors := None |}.

Definition failed_with (errors : option (list ErrorWithDiff)) : TaskResult :=
  {| result_state := StateFail; result_duration := Some 5%Z; result_errors := errors |}.

(** One suite with one test. *)
Definition f1 : File :=
  {| file_suite := f1_suite; file_tasks := [TaskSuite s1 [TaskTest t1]] |}.

(** A skipped suite holding a skipped test. *)
Definition f2 : File :=
  {| file_suite := f1_suite; file_tasks := [TaskSuite s2 [TaskTest t2]] |}.

(** The printer with [f1] pending and one log recorded for [t1]. *)
Definition p1 : Printer :=
  {| fileMessageMap :=
       {[ "f1" :=
            [Literal (SuitMessage_started "f1" "a.test.ts");
             Literal (SuitMessage_started "f1" "math");
             Producer t1;
             Literal (SuitMessage_finished "f1" "math");
             Literal (SuitMessage_finished "f1" "a.test.ts")] ]};
     testConsoleMap := {[ "t1" := [hello] ]};
     console_info := [] |}.

(** The test's own errors are an empty array, its suite has an error. *)
Definition own_empty : Results :=
  {[ "t1" := failed_with (Some []); "s1" := failed_with (Some [boom]) ]}.

(** The test failed without errors of its own, its suite has an error. *)
Definition suite_only : Results :=
  {[ "t1" := failed_with None; "s1" := failed_with (Some [boom]) ]}.

(** The test never got a result, its suite failed in a hook. *)
Definition hook_failed : Results :=
  {[ "s1" := failed_with (Some [boom]) ]}.

(** The suite passed; its result has an errors array, which is empty. *)
Definition empty_errors : Results :=
  {[ "s1" := {| result_state := StatePass; result_duration := Some 5%Z;
                result_errors := Some [] |} ]}.

(** The suite failed with an error that has a message and no stack. *)
Definition no_stack : Results :=
  {[ "s1" := failed_with (Some [bare]) ]}.

(** The printer after [f1] alone was registered. *)
Definition p0 : Printer :=
  match addFile f1 new_Printer with
  | Normal p => p
  | Throw _ => new_Printer
  end.

(** The test finishes, then logs arrive; and the other way round. *)
Definition result_then_logs : list Event :=
  [OnTaskStateChange "t1" (Some (failed_with None));
   OnTaskStateChange "s1" (Some (failed_with (Some [boom])));
   OnConsoleLog "t1" hello;
   OnTaskStateChange "f1" (Some running)].

Definition logs_then_result : list Event :=
  [OnConsoleLog "t1" hello;
   OnTaskStateChange "t1" (Some (failed_with None));
   OnTaskStateChange "s1" (Some (failed_with (Some [boom])));
   OnTaskStateChange "f1" (Some running)].

(** A file whose only task is the test [t1]; one whose only task is the
    skipped test [t2]. *)
Definition f3 : File :=
  {| file_suite := f1_suite; file_tasks := [TaskTest t1] |}.

Definition f4 : File :=
  {| file_suite := f1_suite; file_tasks := [TaskTest t2] |}.

(** A file with a suite of two tests, a skipped suite and a custom task. *)
Definition f5 : File :=
  {| file_suite := f1_suite;
     file_tasks :=
       [TaskSuite s1 [TaskTest t1; TaskTest t3];
        TaskSuite s2 [TaskTest t2];
        TaskCustom c1] |}.

(** A whole run on [file]: registration, the events, then the file's
    terminal notification; the lines logged, if registration succeeded. *)
Definition run_of (file : File) (events : list Event) : option (list string) :=
  match addFile file new_Printer with
  | Normal p =>
      Some (console_info
              (run_printer
                 (deliver_all {| run_results := ∅; run_printer := p |}
                    (events ++ [OnTaskStateChange (file_id file) (Some passed)]))))
  | Throw _ => None
  end.

(** The printer after [f5] alone was registered. *)
Definition p5 : Printer :=
  match addFile f5 new_Printer with
  | Normal p => p
  | Throw _ => new_Printer
  end.

(** A second file, with an id of its own, holding the skipped test. *)
Definition f6 : File :=
  {| file_suite :=
       {| suite_id := "f2"; suite_name := "b.test.ts"; suite_mode := ModeRun;
          suite_file := Some "f2" |};
     file_tasks := [TaskTest t2] |}.

(** The printer after [f3] alone was registered; and the one after [f1]
    and then [f6] were. *)
Definition p3 : Printer :=
  match addFile f3 new_Printer with
  | Normal p => p
  | Throw _ => new_Printer
  end.

Definition p06 : Printer :=
  match addFile f6 p0 with
  | Normal p => p
  | Throw _ => new_Printer
  end.

(** The printer after [f2] alone was registered. *)
Definition p2 : Printer :=
  match addFile f2 new_Printer with
  | Normal p => p
  | Throw _ => new_Printer
  end.

End Scenario.

(** ** Sequences of calls, and trees the walker can finish *)

(** [addTestConsoleLog] called for each entry of [logs], oldest first. *)
Definition record_all (logs : list (string * UserConsoleLog)) (p : Printer)
  : Printer :=
  foldl (λ p entry, addTestConsoleLog entry.1 entry.2 p) p logs.

(** Every suite the walker enters from [task] has its [file]. *)
Fixpoint has_files (task : Task) : bool :=
  match task with
  | TaskSuite suite tasks =>
      if decide (suite_mode suite = ModeRun)
      then bool_decide (is_Some (suite_file suite)) && forallb has_files tasks
      else true
  | _ => true
  end.

(** * Properties *)

(** ** Lists, completions *)

Lemma filter_truthy_id (l : list string) :
  Forall truthy l → filter truthy l = l.
Proof.
  induction 1 as [|s l Hs Hl IH]; [reflexivity|].
  rewrite filter_cons_True by exact Hs. by rewrite IH.
Qed.

Lemma flat_map_concat_map {A B} (f : A → list B) (l : list A) :
  flat_map f l = concat (map f l).
Proof. induction l as [|x l IH]; simpl; [reflexivity|]. by rewrite IH. Qed.

Lemma flatMapM_app {A B} (f : A → Completion (list B)) (l1 l2 : list A) :
  flatMapM f (l1 ++ l2) =
    let! a := flatMapM f l1 in
    let! b := flatMapM f l2 in
    Normal (a ++ b).
Proof.
  induction l1 as [|x l1 IH]; simpl.
  - destruct (flatMapM f l2); reflexivity.
  - destruct (f x) as [here|e]; simpl; [|reflexivity].
    rewrite IH. destruct (flatMapM f l1) as [a|e]; simpl; [|reflexivity].
    destruct (flatMapM f l2) as [b|e]; simpl; [|reflexivity].
    by rewrite app_assoc.
Qed.

(** Induction on a task tree with the hypothesis for every child. *)
Lemma Task_tree_ind (P : Task → Prop) :
  (∀ t, P (TaskTest t)) →
  (∀ c, P (TaskCustom c)) →
  (∀ suite tasks, Forall P tasks → P (TaskSuite suite tasks)) →
  ∀ task, P task.
Proof.
  intros Htest Hcustom Hsuite. fix IH 1.
  intros [t|c|suite tasks]; [apply Htest|apply Hcustom|].
  apply Hsuite. induction tasks as [|task tasks IHtasks]; constructor.
  - apply IH.
  - exact IHtasks.
Qed.

Section facts.
Context `{Collaborators}.

(** With non-empty lines [filter(Boolean)] keeps every line of a producer. *)
Lemma callProducer_all_lines `{!TruthyMessages} results p test :
  callProducer results p test =
    [TestMessage_started test]
      ++ map (λ log, TestMessage_log test (log_type log) (log_content log))
             (test_logs p test)
      ++ (if test_fail results test
          then map (TestMessage_fail test) (getTestErrors results test) else [])
      ++ [TestMessage_finished test (result_duration_of results (test_id test) ?? 0%Z)].
Proof.
  unfold callProducer. apply filter_truthy_id.
  repeat apply Forall_app_2.
  - repeat constructor. apply started_truthy.
  - apply Forall_map, Forall_true. intros log. apply log_truthy.
  - destruct (test_fail results test); [|constructor].
    apply Forall_map, Forall_true. intros e. apply fail_truthy.
  - repeat constructor. apply finished_truthy.
Qed.

Lemma handleTest_skip test :
  test_mode test = ModeSkip → handleTest test = Literal (TestMessage_ignored test).
Proof. intros Hmode. unfold handleTest. by rewrite decide_True. Qed.

Lemma handleTest_run test :
  test_mode test ≠ ModeSkip → handleTest test = Producer test.
Proof. intros Hmode. unfold handleTest. by rewrite decide_False. Qed.

Lemma handleTask_suite suite tasks :
  handleTask (TaskSuite suite tasks) =
    if decide (suite_mode suite = ModeRun) then handleSuite suite tasks else Normal [].
Proof. reflexivity. Qed.

Lemma handleTask_passed_over task :
  passed_over task → handleTask task = Normal [].
Proof.
  destruct task as [t|c|suite tasks]; simpl; [tauto|reflexivity|].
  intros Hmode. by rewrite decide_False.
Qed.

Lemma handeUpdate_flush results id messages r p :
  fileMessageMap p !! id = Some messages →
  result_state r ≠ StateRun →
  handeUpdate results (id, Some r) p = flushed results id messages p.
Proof.
  intros Hget Hstate. unfold handeUpdate, flushed. simpl.
  rewrite Hget, decide_True by exact Hstate.
  by rewrite flat_map_concat_map.
Qed.

Lemma handeUpdate_unknown results id result p :
  fileMessageMap p !! id = None → handeUpdate results (id, result) p = p.
Proof. intros Hget. unfold handeUpdate. simpl. by rewrite Hget. Qed.

Lemma handeUpdate_absent results id p :
  handeUpdate results (id, None) p = p.
Proof. unfold handeUpdate. simpl. by destruct (fileMessageMap p !! id). Qed.

Lemma handeUpdate_running results id r p :
  result_state r = StateRun → handeUpdate results (id, Some r) p = p.
Proof.
  intros Hstate. unfold handeUpdate. simpl.
  destruct (fileMessageMap p !! id); [|reflexivity].
  rewrite decide_False; [reflexivity|]. intros Hne. by apply Hne.
Qed.

End facts.

(** ** The error fallback chain *)

Section errors.
Context `{Collaborators}.

(** C1, as the code has it.  The errors reported for a test are its own
    result's errors when that array is present, even if it is empty;
    otherwise its suite's result's errors when present; otherwise its file's
    result's errors when present; otherwise exactly one missing-result error.
    A failing test without an errors array of its own whose suite's result
    has one reports a failure line per error of the suite, between its logs
    and its finished line, and no missing-result error. *)
Theorem getTestErrors_fallback `{!TruthyMessages} results p test :
  (∀ own, result_errors_of results (test_id test) = Some own →
     getTestErrors results test = own)
  ∧ (∀ of_suite,
       result_errors_of results (test_id test) = None →
       result_errors_of results (test_suite test) = Some of_suite →
       getTestErrors results test = of_suite)
  ∧ (∀ of_file,
       result_errors_of results (test_id test) = None →
       result_errors_of results (test_suite test) = None →
       test_file test ≫= result_errors_of results = Some of_file →
       getTestErrors results test = of_file)
  ∧ (result_errors_of results (test_id test) = None →
     result_errors_of results (test_suite test) = None →
     test_file test ≫= result_errors_of results = None →
     getTestErrors results test = [MissingResultError test])
  ∧ (∀ of_suite,
       test_mode test ≠ ModeSkip →
       test_fail results test = true →
       result_errors_of results (test_id test) = None →
       result_errors_of results (test_suite test) = Some of_suite →
       test_lines results p test =
         [TestMessage_started test]
           ++ map (λ log, TestMessage_log test (log_type log) (log_content log))
                  (test_logs p test)
           ++ map (TestMessage_fail test) of_suite
           ++ [TestMessage_finished test
                 (result_duration_of results (test_id test) ?? 0%Z)]).
Proof.
  unfold getTestErrors. repeat split.
  - intros own ->. reflexivity.
  - intros of_suite -> ->. reflexivity.
  - intros of_file -> -> ->. reflexivity.
  - intros -> -> ->. reflexivity.
  - intros of_suite Hmode Hfail Hown Hsuite.
    unfold test_lines. rewrite handleTest_run by exact Hmode. simpl.
    rewrite callProducer_all_lines, Hfail.
    unfold getTestErrors. rewrite Hown, Hsuite. reflexivity.
Qed.

End errors.

(** C1, at a failing test without errors of its own under a suite with one
    error: the failure line is the suite's. *)
Lemma getTestErrors_fallback_witness :
  getTestErrors Scenario.suite_only Scenario.t1 = [Scenario.boom]
  ∧ test_lines Scenario.suite_only Scenario.p1 Scenario.t1 =
      [TestMessage_started Scenario.t1;
       TestMessage_log Scenario.t1 Stdout "hello";
       TestMessage_fail Scenario.t1 Scenario.boom;
       TestMessage_finished Scenario.t1 5%Z].
Proof.
  destruct (getTestErrors_fallback Scenario.suite_only Scenario.p1 Scenario.t1)
    as (_ & Hsuite & _ & _ & Hlines).
  split.
  - apply Hsuite; reflexivity.
  - apply (Hlines [Scenario.boom]); [discriminate|reflexivity..].
Defined.

(** C1 as stated fails: a test whose own errors array is empty gets no
    error at all, although its suite's result carries one; the chain only
    falls through an absent array. *)
Lemma getTestErrors_empty_array_stops_chain :
  result_errors_of Scenario.own_empty (test_id Scenario.t1) = Some []
  ∧ result_errors_of Scenario.own_empty (test_suite Scenario.t1) = Some [Scenario.boom]
  ∧ test_fail Scenario.own_empty Scenario.t1 = true
  ∧ getTestErrors Scenario.own_empty Scenario.t1 = []
  ∧ getTestErrors Scenario.own_empty Scenario.t1 ≠ [Scenario.boom]
  ∧ test_lines Scenario.own_empty Scenario.p1 Scenario.t1 =
      [TestMessage_started Scenario.t1;
       TestMessage_log Scenario.t1 Stdout "hello";
       TestMessage_finished Scenario.t1 5%Z].
Proof. repeat split; try reflexivity. discriminate. Qed.

(** ** The flush gate *)

Section flush.
Context `{Collaborators}.

(** C2.  A notification for an id without a pending entry, or without a
    result, or with a result still in state run, leaves the printer as it
    was.  Any other notification hands the lines of the entry's messages,
    message by message in stored order, to the logger and deletes the
    entry; whatever is notified for that id afterwards changes nothing. *)
Theorem handeUpdate_flushes_once results id result p :
  (fileMessageMap p !! id = None
   ∨ result = None
   ∨ result_state <$> result = Some StateRun →
   handeUpdate results (id, result) p = p)
  ∧ (∀ messages r,
       fileMessageMap p !! id = Some messages →
       result = Some r →
       result_state r ≠ StateRun →
       handeUpdate results (id, result) p =
         {| fileMessageMap := delete id (fileMessageMap p);
            testConsoleMap := testConsoleMap p;
            console_info :=
              console_info p ++ concat (map (evalMessage results p) messages) |}
       ∧ ∀ results' result',
           handeUpdate results' (id, result') (handeUpdate results (id, result) p) =
             handeUpdate results (id, result) p).
Proof.
  split.
  - intros [Hnone|[->|Hrun]].
    + by apply handeUpdate_unknown.
    + apply handeUpdate_absent.
    + destruct result as [r|]; [|apply handeUpdate_absent].
      apply handeUpdate_running. simpl in Hrun. congruence.
  - intros messages r Hget -> Hstate.
    rewrite (handeUpdate_flush _ _ _ _ _ Hget Hstate). split; [reflexivity|].
    intros results' result'. apply handeUpdate_unknown.
    simpl. apply lookup_delete_eq.
Qed.

End flush.

(** C2, at the printer with [f1] pending: a running notification changes
    nothing, the terminal one logs the five lines and drops the entry, and
    a second terminal one changes nothing more. *)
Lemma handeUpdate_flushes_once_witness :
  handeUpdate Scenario.suite_only ("f1", Some Scenario.running) Scenario.p1 = Scenario.p1
  ∧ console_info (handeUpdate Scenario.suite_only ("f1", Some Scenario.passed) Scenario.p1) =
      [SuitMessage_started "f1" "a.test.ts";
       SuitMessage_started "f1" "math";
       TestMessage_started Scenario.t1;
       TestMessage_log Scenario.t1 Stdout "hello";
       TestMessage_fail Scenario.t1 Scenario.boom;
       TestMessage_finished Scenario.t1 5%Z;
       SuitMessage_finished "f1" "math";
       SuitMessage_finished "f1" "a.test.ts"]
  ∧ handeUpdate Scenario.suite_only ("f1", Some Scenario.passed)
      (handeUpdate Scenario.suite_only ("f1", Some Scenario.passed) Scenario.p1) =
      handeUpdate Scenario.suite_only ("f1", Some Scenario.passed) Scenario.p1.
Proof.
  split; [|split].
  - apply (handeUpdate_flushes_once Scenario.suite_only "f1" (Some Scenario.running)
             Scenario.p1).
    right. right. reflexivity.
  - destruct (handeUpdate_flushes_once Scenario.suite_only "f1" (Some Scenario.passed)
                Scenario.p1) as [_ Hflush].
    destruct (Hflush _ Scenario.passed eq_refl eq_refl) as [-> _]; [discriminate|].
    reflexivity.
  - destruct (handeUpdate_flushes_once Scenario.suite_only "f1" (Some Scenario.passed)
                Scenario.p1) as [_ Hflush].
    destruct (Hflush _ Scenario.passed eq_refl eq_refl) as [_ Hagain]; [discriminate|].
    apply Hagain.
Defined.

(** ** The tree walker *)

Section walker.
Context `{Collaborators}.

(** C8.  For a suite that is not in run mode, and for a task that is
    neither a test nor a suite, the walker returns no message at all, so
    the messages of its siblings are what they would be without it. *)
Theorem handleTask_passes_over task before after :
  passed_over task →
  handleTask task = Normal []
  ∧ flatMapM handleTask (before ++ task :: after) =
      flatMapM handleTask (before ++ after).
Proof.
  intros Hover. pose proof (handleTask_passed_over task Hover) as Hnone.
  split; [exact Hnone|].
  rewrite !flatMapM_app. simpl. rewrite Hnone. simpl.
  destruct (flatMapM handleTask before) as [a|e]; simpl; [|reflexivity].
  destruct (flatMapM handleTask after) as [b|e]; reflexivity.
Qed.

(** C10.  A test in any mode other than skip gets the producer: called at
    flush time it gives the started line, a line per recorded log, a line
    per error when the test failed, and the finished line, empty strings
    dropped.  The walker gives the literal ignored line exactly for the
    mode skip. *)
Theorem handleTest_producer_unless_skip results p test :
  test_mode test ≠ ModeSkip →
  handleTask (TaskTest test) = Normal [Producer test]
  ∧ handleTest test ≠ Literal (TestMessage_ignored test)
  ∧ evalMessage results p (handleTest test) =
      filter truthy
        ([TestMessage_started test]
           ++ map (λ log, TestMessage_log test (log_type log) (log_content log))
                  (test_logs p test)
           ++ (if test_fail results test
               then map (TestMessage_fail test) (getTestErrors results test) else [])
           ++ [TestMessage_finished test
                 (result_duration_of results (test_id test) ?? 0%Z)])
  ∧ ∀ other, handleTest other = Literal (TestMessage_ignored other)
             ↔ test_mode other = ModeSkip.
Proof.
  intros Hmode. simpl. rewrite (handleTest_run test Hmode).
  repeat split; try done.
  - intros Hlit. unfold handleTest in Hlit.
    destruct (decide (test_mode other = ModeSkip)); [assumption|discriminate].
  - apply handleTest_skip.
Qed.

End walker.

(** C8, at a skipped suite between two tests and at a custom task. *)
Lemma handleTask_passes_over_witness :
  handleTask (TaskSuite Scenario.s2 [TaskTest Scenario.t2]) = Normal []
  ∧ flatMapM handleTask
      ([TaskTest Scenario.t1]
         ++ TaskSuite Scenario.s2 [TaskTest Scenario.t2] :: [TaskTest Scenario.t3]) =
      flatMapM handleTask ([TaskTest Scenario.t1] ++ [TaskTest Scenario.t3])
  ∧ handleTask (TaskCustom Scenario.c1) = Normal [].
Proof.
  split; [|split].
  - apply (handleTask_passes_over (TaskSuite Scenario.s2 [TaskTest Scenario.t2]) [] []).
    simpl. discriminate.
  - apply (handleTask_passes_over (TaskSuite Scenario.s2 [TaskTest Scenario.t2])
             [TaskTest Scenario.t1] [TaskTest Scenario.t3]).
    simpl. discriminate.
  - apply (handleTask_passes_over (TaskCustom Scenario.c1) [] []). exact I.
Defined.

(** C10, at a test in mode todo. *)
Lemma handleTest_producer_unless_skip_witness :
  handleTask (TaskTest Scenario.t3) = Normal [Producer Scenario.t3]
  ∧ evalMessage Scenario.suite_only Scenario.p1 (handleTest Scenario.t3) =
      [TestMessage_started Scenario.t3;
       TestMessage_fail Scenario.t3 Scenario.boom;
       TestMessage_finished Scenario.t3 0%Z].
Proof.
  destruct (handleTest_producer_unless_skip Scenario.suite_only Scenario.p1 Scenario.t3)
    as (Hwalk & _ & Hlines & _); [discriminate|].
  split; [exact Hwalk|]. rewrite Hlines. reflexivity.
Defined.

(** ** What one test contributes *)

Section tests.
Context `{Collaborators}.

Lemma addFile_fileMessages file p p' :
  addFile file p = Normal p' →
  registered file p'
  ∧ testConsoleMap p' = testConsoleMap p
  ∧ console_info p' = console_info p.
Proof.
  unfold addFile, registered, fileMessages.
  destruct (flatMapM handleTask (file_tasks file)) as [inner|e]; simpl; [|discriminate].
  intros [= <-]. simpl. split; [|done].
  eexists. split; [reflexivity|]. apply lookup_insert_eq.
Qed.

Lemma flatMapM_elem {A B} (f : A → Completion (list B)) (l : list A) (out : list B) x :
  flatMapM f l = Normal out →
  x ∈ l →
  ∃ here before after, f x = Normal here ∧ out = before ++ here ++ after.
Proof.
  revert out. induction l as [|y l IH]; intros out Hout Hin.
  - by apply elem_of_nil in Hin.
  - simpl in Hout.
    destruct (f y) as [here|e] eqn:Hy; simpl in Hout; [|discriminate].
    destruct (flatMapM f l) as [rest|e] eqn:Hrest; simpl in Hout; [|discriminate].
    injection Hout as <-.
    apply elem_of_cons in Hin as [->|Hin].
    + exists here, [], rest. split; [exact Hy|reflexivity].
    + destruct (IH rest eq_refl Hin) as (hx & before & after & Hx & ->).
      exists hx, (here ++ before), after. split; [exact Hx|].
      by rewrite <- app_assoc.
Qed.

(** The message of a test the walker reaches is among the messages of the
    task it was reached from. *)
Lemma handleTask_reaches test task messages :
  reaches test task →
  handleTask task = Normal messages →
  ∃ before after, messages = before ++ handleTest test :: after.
Proof.
  intros Hreach. revert messages.
  induction Hreach as [|suite tasks task Hmode Hin Hreach IH]; intros messages Hwalk.
  - simpl in Hwalk. injection Hwalk as <-. by exists [], [].
  - simpl in Hwalk. rewrite decide_True in Hwalk by exact Hmode.
    destruct (non_null "suite.file" (suite_file suite)) as [fileId|e];
      simpl in Hwalk; [|discriminate].
    destruct (flatMapM handleTask tasks) as [inner|e] eqn:Hinner;
      simpl in Hwalk; [|discriminate].
    injection Hwalk as <-.
    destruct (flatMapM_elem _ _ _ _ Hinner Hin) as (here & b1 & a1 & Hhere & ->).
    destruct (IH here Hhere) as (b2 & a2 & ->).
    eexists (_ :: b1 ++ b2), (a2 ++ a1 ++ [_]).
    simpl. f_equal. rewrite <- ?app_assoc. simpl. by rewrite <- ?app_assoc.
Qed.

Lemma fileMessages_reaches test file messages :
  Exists (reaches test) (file_tasks file) →
  fileMessages file = Normal messages →
  ∃ before after, messages = before ++ handleTest test :: after.
Proof.
  intros Hreach Hmsgs. unfold fileMessages in Hmsgs.
  destruct (flatMapM handleTask (file_tasks file)) as [inner|e] eqn:Hinner;
    simpl in Hmsgs; [|discriminate].
  injection Hmsgs as <-.
  apply Exists_exists in Hreach as (task & Hin & Hreach).
  destruct (flatMapM_elem _ _ _ _ Hinner Hin) as (here & b1 & a1 & Hhere & ->).
  destruct (handleTask_reaches _ _ _ Hreach Hhere) as (b2 & a2 & ->).
  eexists (_ :: b1 ++ b2), (a2 ++ a1 ++ [_]).
  simpl. f_equal. rewrite <- ?app_assoc. simpl. by rewrite <- ?app_assoc.
Qed.

Lemma test_lines_skip results p test :
  test_mode test = ModeSkip →
  test_lines results p test = [TestMessage_ignored test].
Proof. intros Hmode. unfold test_lines. by rewrite handleTest_skip. Qed.

Lemma test_lines_run `{!TruthyMessages} results p test :
  test_mode test ≠ ModeSkip →
  test_lines results p test =
    [TestMessage_started test]
      ++ map (λ log, TestMessage_log test (log_type log) (log_content log))
             (test_logs p test)
      ++ (if test_fail results test
          then map (TestMessage_fail test) (getTestErrors results test) else [])
      ++ [TestMessage_finished test (result_duration_of results (test_id test) ?? 0%Z)].
Proof.
  intros Hmode. unfold test_lines. rewrite handleTest_run by exact Hmode.
  apply callProducer_all_lines.
Qed.

(** Recording a log adds it to the logs of the test it names, and to no
    other test's. *)
Lemma test_logs_recorded p test id log :
  length (test_logs (addTestConsoleLog id log p) test) =
    length (test_logs p test) + (if decide (id = test_id test) then 1 else 0).
Proof.
  unfold test_logs, addTestConsoleLog. simpl.
  destruct (decide (id = test_id test)) as [->|Hne].
  - destruct (testConsoleMap p !! test_id test) as [messages|] eqn:Hget;
      rewrite lookup_insert_eq; simpl; [|reflexivity].
    rewrite length_app. simpl. lia.
  - destruct (testConsoleMap p !! id);
      rewrite lookup_insert_ne by exact Hne; lia.
Qed.

(** C4, as the code has it.  When a pending file is flushed, every test
    the walker reached (each suite above it in run mode) contributes one
    block of lines: exactly 1 line if its mode is skip, and otherwise
    exactly 2 + the number of logs recorded for it + the number of resolved
    errors if it failed (else 0), the message builders' lines being
    non-empty.  The number of logs grows by one with each log recorded
    under the test's id and with no other. *)
Theorem test_line_count `{!TruthyMessages} results file p r test :
  registered file p →
  Exists (reaches test) (file_tasks file) →
  result_state r ≠ StateRun →
  (∃ before after,
     console_info (handeUpdate results (file_id file, Some r) p) =
       console_info p ++ before ++ test_lines results p test ++ after)
  ∧ length (test_lines results p test) =
      (if decide (test_mode test = ModeSkip) then 1
       else 2 + length (test_logs p test)
              + (if test_fail results test
                 then length (getTestErrors results test) else 0))
  ∧ ∀ id log,
      length (test_logs (addTestConsoleLog id log p) test) =
        length (test_logs p test) + (if decide (id = test_id test) then 1 else 0).
Proof.
  intros (messages & Hmsgs & Hget) Hreach Hstate. split; [|split].
  - rewrite (handeUpdate_flush _ _ _ _ _ Hget Hstate). simpl.
    destruct (fileMessages_reaches _ _ _ Hreach Hmsgs) as (b & a & ->).
    exists (concat (map (evalMessage results p) b)),
           (concat (map (evalMessage results p) a)).
    rewrite map_app, concat_app. simpl. reflexivity.
  - destruct (decide (test_mode test = ModeSkip)) as [Hskip|Hrun].
    + by rewrite test_lines_skip.
    + rewrite test_lines_run by exact Hrun.
      rewrite !length_app, length_map. simpl.
      destruct (test_fail results test); rewrite ?length_map; simpl; lia.
  - intros id log. apply test_logs_recorded.
Qed.

(** C5, as the code has it.  At flush time a test in mode skip gives the
    ignored line alone; otherwise a test without a result record, or whose
    result's state is fail, gives started, logs, one failure line per
    resolved error, finished; any other test gives started, logs, finished.
    A test that is not skipped and has no result, under a suite and a file
    whose results have no errors array either, gives a failure line with
    the missing-result error and then the finished line with duration 0. *)
Theorem test_lines_by_outcome `{!TruthyMessages} results p test :
  test_lines results p test =
    match classify results test with
    | OutcomeSkip => [TestMessage_ignored test]
    | OutcomeFail =>
        [TestMessage_started test]
          ++ map (λ log, TestMessage_log test (log_type log) (log_content log))
                 (test_logs p test)
          ++ map (TestMessage_fail test) (getTestErrors results test)
          ++ [TestMessage_finished test
                (result_duration_of results (test_id test) ?? 0%Z)]
    | OutcomePass =>
        [TestMessage_started test]
          ++ map (λ log, TestMessage_log test (log_type log) (log_content log))
                 (test_logs p test)
          ++ [TestMessage_finished test
                (result_duration_of results (test_id test) ?? 0%Z)]
    end
  ∧ (test_mode test ≠ ModeSkip →
     results !! test_id test = None →
     result_errors_of results (test_suite test) = None →
     test_file test ≫= result_errors_of results = None →
     test_lines results p test =
       [TestMessage_started test]
         ++ map (λ log, TestMessage_log test (log_type log) (log_content log))
                (test_logs p test)
         ++ [TestMessage_fail test (MissingResultError test);
             TestMessage_finished test 0%Z]).
Proof.
  split.
  - destruct (decide (test_mode test = ModeSkip)) as [Hskip|Hrun].
    + rewrite test_lines_skip by exact Hskip. unfold classify. by rewrite Hskip.
    + rewrite test_lines_run by exact Hrun.
      unfold classify, test_fail.
      destruct (test_mode test); try done;
        (destruct (results !! test_id test) as [r|]; [|reflexivity];
         destruct (result_state r); reflexivity).
  - intros Hrun Hnone Hsuite Hfile.
    rewrite test_lines_run by exact Hrun.
    unfold test_fail, getTestErrors, result_duration_of, result_errors_of in *.
    rewrite Hnone in *. simpl. rewrite Hsuite, Hfile. reflexivity.
Qed.

End tests.

(** C4, at the test of [f1]: one log and one error of its suite make 4
    lines. *)
Lemma test_line_count_witness :
  (∃ before after,
     console_info
       (handeUpdate Scenario.suite_only ("f1", Some Scenario.passed) Scenario.p1) =
       console_info Scenario.p1
         ++ before
         ++ test_lines Scenario.suite_only Scenario.p1 Scenario.t1
         ++ after)
  ∧ length (test_lines Scenario.suite_only Scenario.p1 Scenario.t1) = 4
  ∧ ∀ id log,
      length (test_logs (addTestConsoleLog id log Scenario.p1) Scenario.t1) =
        length (test_logs Scenario.p1 Scenario.t1)
        + (if decide (id = test_id Scenario.t1) then 1 else 0).
Proof.
  apply (test_line_count Scenario.suite_only Scenario.f1 Scenario.p1 Scenario.passed
           Scenario.t1).
  - eexists. split; reflexivity.
  - apply Exists_cons_hd. eapply reaches_suite.
    + reflexivity.
    + apply list_elem_of_here.
    + apply reaches_test.
  - discriminate.
Defined.

(** C4 as stated fails: the skipped test [t2] sits in a flushed file under
    a skipped suite, and the flush emits the file's two bracket lines only,
    without an ignored line for it. *)
Lemma test_under_skipped_suite_has_no_line :
  TaskTest Scenario.t2 ∈ tasks_of (file_task Scenario.f2)
  ∧ test_mode Scenario.t2 = ModeSkip
  ∧ registered Scenario.f2 Scenario.p2
  ∧ console_info (handeUpdate ∅ ("f1", Some Scenario.passed) Scenario.p2) =
      [SuitMessage_started "f1" "a.test.ts"; SuitMessage_finished "f1" "a.test.ts"]
  ∧ TestMessage_ignored Scenario.t2
      ∉ console_info (handeUpdate ∅ ("f1", Some Scenario.passed) Scenario.p2).
Proof.
  split; [|split; [|split; [|split]]].
  - simpl. set_solver.
  - reflexivity.
  - eexists. split; reflexivity.
  - reflexivity.
  - intros Hin. vm_compute in Hin.
    repeat (apply elem_of_cons in Hin as [Hin|Hin]; [discriminate|]).
    by apply elem_of_nil in Hin.
Qed.

(** C5, at a test that is not skipped and has no result anywhere in its
    chain. *)
Lemma test_lines_by_outcome_witness :
  test_lines ∅ Scenario.p1 Scenario.t3 =
    [TestMessage_started Scenario.t3;
     TestMessage_fail Scenario.t3 (MissingResultError Scenario.t3);
     TestMessage_finished Scenario.t3 0%Z].
Proof.
  destruct (test_lines_by_outcome ∅ Scenario.p1 Scenario.t3) as [_ Hmissing].
  rewrite Hmissing; [reflexivity|discriminate|reflexivity..].
Defined.

(** C5 as stated fails: [t1] is not skipped and has no result at all, but
    its suite's result carries an error, so its failure line is the
    suite's error and no line carries the missing-result error. *)
Lemma no_result_reports_suite_error :
  test_mode Scenario.t1 ≠ ModeSkip
  ∧ Scenario.hook_failed !! test_id Scenario.t1 = None
  ∧ test_lines Scenario.hook_failed Scenario.p1 Scenario.t1 =
      [TestMessage_started Scenario.t1;
       TestMessage_log Scenario.t1 Stdout "hello";
       TestMessage_fail Scenario.t1 Scenario.boom;
       TestMessage_finished Scenario.t1 0%Z]
  ∧ TestMessage_fail Scenario.t1 (MissingResultError Scenario.t1)
      ∉ test_lines Scenario.hook_failed Scenario.p1 Scenario.t1.
Proof.
  split; [discriminate|]. split; [reflexivity|]. split; [reflexivity|].
  intros Hin. vm_compute in Hin.
  repeat (apply elem_of_cons in Hin as [Hin|Hin]; [discriminate|]).
  by apply elem_of_nil in Hin.
Qed.

(** ** The run summary *)

Lemma filter_flat_map {A B} (P : B → Prop) `{!∀ x, Decision (P x)}
    (f : A → list B) (l : list A) :
  filter P (flat_map f l) = flat_map (λ x, filter P (f x)) l.
Proof.
  induction l as [|x l IH]; simpl; [reflexivity|].
  by rewrite filter_app, IH.
Qed.

Lemma flat_map_Forall_ext {A B} (f g : A → list B) (l : list A) :
  Forall (λ x, f x = g x) l → flat_map f l = flat_map g l.
Proof.
  induction 1 as [|x l Hx Hl IH]; simpl; [reflexivity|].
  by rewrite Hx, IH.
Qed.

(** [getSuites] collects the suites of the tree, in pre-order. *)
Lemma getSuites_of_tasks_of task :
  getSuites_of task = filter is_suite (tasks_of task).
Proof.
  induction task as [t|c|suite tasks IH] using Task_tree_ind; try reflexivity.
  simpl. rewrite filter_cons_True by exact I. f_equal.
  rewrite filter_flat_map. by apply flat_map_Forall_ext.
Qed.

(** [getTests] collects the tasks of the tree that have no children of
    their own, in pre-order. *)
Lemma getTests_of_tasks_of task :
  getTests_of task = filter is_leaf (tasks_of task).
Proof.
  induction task as [t|c|suite tasks IH] using Task_tree_ind; try reflexivity.
  simpl. rewrite filter_cons_False by (intros []).
  rewrite filter_flat_map. apply flat_map_Forall_ext.
  eapply Forall_impl; [exact IH|]. intros task Htask. simpl in Htask.
  destruct task as [t|c|s ts]; simpl; try reflexivity. exact Htask.
Qed.

Lemma getSuites_tasks_of files :
  getSuites files = filter is_suite (flat_map tasks_of (toArray files)).
Proof.
  unfold getSuites. rewrite filter_flat_map.
  apply flat_map_Forall_ext, Forall_true. intros task. apply getSuites_of_tasks_of.
Qed.

Lemma getTests_tasks_of files :
  getTests files = filter is_leaf (flat_map tasks_of (toArray files)).
Proof.
  unfold getTests. rewrite filter_flat_map.
  apply flat_map_Forall_ext, Forall_true. intros task. apply getTests_of_tasks_of.
Qed.

(** A suite whose errors array is empty adds no entry, so the entries
    come from the suites that carry at least one error. *)
Lemma suite_entries_of_failed {B} results (entry : Task → ErrorWithDiff → B)
    (suites : list Task) :
  flat_map (λ suite, map (entry suite) (result_errors_of results (task_id suite) ?? []))
           (filter (has_errors results) suites) =
  flat_map (λ suite, map (entry suite) (result_errors_of results (task_id suite) ?? []))
           (filter (carries_an_error results) suites).
Proof.
  induction suites as [|suite suites IH]; [reflexivity|].
  rewrite !filter_cons.
  destruct (decide (has_errors results suite)) as [[es Hes]|Hno];
    destruct (decide (carries_an_error results suite)) as [Hcarries|Hnot]; simpl.
  - by rewrite IH.
  - rewrite IH. rewrite Hes. destruct es as [|e es]; [reflexivity|].
    exfalso. apply Hnot. by exists e, es.
  - destruct Hcarries as (e & es & Hes). exfalso. apply Hno. unfold has_errors. by rewrite Hes.
  - exact IH.
Qed.

(** C6, as the code has it.  Over the tasks of the trees handed to the
    summary: totalSuitesCount is the number of suites, nested ones
    included; failedSuitesCount is the number of those suites whose own
    result has an errors array, be it empty; totalTestsCount is the number
    of tasks without children (tests and custom tasks); failedTestsCount is
    the number of those whose result's state is fail. *)
Theorem writeSummary_counts (results : Results) (files : Arrayable Task) :
  totalSuitesCount (writeSummary results files) =
    length (filter is_suite (flat_map tasks_of (toArray files)))
  ∧ failedSuitesCount (writeSummary results files) =
      length (filter (has_errors results)
                (filter is_suite (flat_map tasks_of (toArray files))))
  ∧ totalTestsCount (writeSummary results files) =
      length (filter is_leaf (flat_map tasks_of (toArray files)))
  ∧ failedTestsCount (writeSummary results files) =
      length (filter (state_is_fail results)
                (filter is_leaf (flat_map tasks_of (toArray files)))).
Proof.
  unfold writeSummary. simpl.
  rewrite getSuites_tasks_of, getTests_tasks_of. done.
Qed.

(** C6 as stated fails: the one nested suite of [f1] passed with an empty
    errors array, so no suite carries an error, and failedSuitesCount
    is 1. *)
Lemma writeSummary_counts_empty_errors_array :
  result_errors_of Scenario.empty_errors "s1" = Some []
  ∧ length (filter (carries_an_error Scenario.empty_errors)
              (getSuites (Many [file_task Scenario.f1]))) = 0
  ∧ failedSuitesCount (writeSummary Scenario.empty_errors (Many [file_task Scenario.f1])) = 1
  ∧ totalSuitesCount (writeSummary Scenario.empty_errors (Many [file_task Scenario.f1])) = 2.
Proof. repeat split; reflexivity. Qed.

(** The entries [writeSummary] builds: suite by suite in pre-order over
    the suites that carry at least one error, one entry per error of the
    suite's result in order, pairing the suite's name with what reading
    [error.stack] gives.  For an error that has a stack this is the entry
    the summary is declared to hold. *)
Theorem writeSummary_suiteErrors (results : Results) (files : Arrayable Task) :
  suiteErrors (writeSummary results files) =
    flat_map
      (λ suite,
         map (λ error, {| suiteError_file := task_name suite;
                          suiteError_error := error_stack error |})
             (result_errors_of results (task_id suite) ?? []))
      (filter (carries_an_error results)
         (filter is_suite (flat_map tasks_of (toArray files)))).
Proof.
  unfold writeSummary. simpl. rewrite getSuites_tasks_of.
  rewrite <- (suite_entries_of_failed results
                (λ suite error, {| suiteError_file := task_name suite;
                                   suiteError_error := error_stack error |})).
  case_decide as Hlen; [reflexivity|].
  destruct (filter (has_errors results) _) as [|suite suites]; [reflexivity|].
  simpl in Hlen. lia.
Qed.

(** C7, the code at an error without a stack.  The failed suite's one
    error has the message "hook failed" and no stack; the entry built for
    it pairs the suite's name with no text at all, where the summary's
    declaration ([error: string]) and the claim ask for the error's
    diagnostic text: [error.stack] is read and the message never is. *)
Lemma writeSummary_suiteErrors_without_stack :
  result_errors_of Scenario.no_stack "s1" = Some [Scenario.bare]
  ∧ error_message Scenario.bare = "hook failed"
  ∧ error_stack Scenario.bare = None
  ∧ suiteErrors (writeSummary Scenario.no_stack (Many [file_task Scenario.f1])) =
      [{| suiteError_file := "math"; suiteError_error := None |}].
Proof. repeat split; reflexivity. Qed.

(** ** What a flush reclaims *)

Section reclaim.
Context `{Collaborators}.

Lemma handeUpdate_testConsoleMap results pack p :
  testConsoleMap (handeUpdate results pack p) = testConsoleMap p.
Proof.
  unfold handeUpdate.
  destruct (fileMessageMap p !! pack.1); [|reflexivity].
  destruct pack.2; [|reflexivity]. by case_decide.
Qed.

Lemma handeUpdate_other results pack p other :
  other ≠ pack.1 →
  fileMessageMap (handeUpdate results pack p) !! other = fileMessageMap p !! other.
Proof.
  intros Hne. unfold handeUpdate.
  destruct (fileMessageMap p !! pack.1); [|reflexivity].
  destruct pack.2; [|reflexivity]. case_decide; [|reflexivity].
  simpl. by rewrite lookup_delete_ne.
Qed.

Lemma handeUpdate_not_terminal results id result p :
  ¬ terminal result → handeUpdate results (id, result) p = p.
Proof.
  destruct result as [r|]; [|intros _; apply handeUpdate_absent].
  simpl. intros Hrun. apply handeUpdate_running.
  by destruct (decide (result_state r = StateRun)).
Qed.

(** C9, as the code has it.  A flush removes the pending entry of the file
    it flushes and no other, and a notification that is not terminal
    removes none; no notification changes the console-log buffer, flush or
    not, so the logs recorded for the file's tests stay; recording a log
    and registering a file remove nothing from either map. *)
Theorem flush_reclaims_file_entry_only results id result p :
  (is_Some (fileMessageMap p !! id) → terminal result →
   fileMessageMap (handeUpdate results (id, result) p) !! id = None)
  ∧ (¬ terminal result →
     fileMessageMap (handeUpdate results (id, result) p) = fileMessageMap p)
  ∧ (∀ other, other ≠ id →
       fileMessageMap (handeUpdate results (id, result) p) !! other =
         fileMessageMap p !! other)
  ∧ testConsoleMap (handeUpdate results (id, result) p) = testConsoleMap p
  ∧ (∀ testId log,
       fileMessageMap (addTestConsoleLog testId log p) = fileMessageMap p
       ∧ dom (testConsoleMap p) ⊆ dom (testConsoleMap (addTestConsoleLog testId log p)))
  ∧ (∀ file p',
       addFile file p = Normal p' →
       testConsoleMap p' = testConsoleMap p
       ∧ dom (fileMessageMap p) ⊆ dom (fileMessageMap p')).
Proof.
  split; [|split; [|split; [|split; [|split]]]].
  - intros [messages Hget] Hterminal.
    destruct result as [r|]; [|done]. simpl in Hterminal.
    rewrite (handeUpdate_flush _ _ _ _ _ Hget Hterminal). simpl.
    apply lookup_delete_eq.
  - intros Hnot. by rewrite handeUpdate_not_terminal.
  - intros other Hne. by apply handeUpdate_other.
  - apply handeUpdate_testConsoleMap.
  - intros testId log. split; [reflexivity|]. simpl.
    destruct (testConsoleMap p !! testId); apply dom_insert_subseteq.
  - intros file p' Hadd. unfold addFile in Hadd.
    destruct (flatMapM handleTask (file_tasks file)) as [inner|e];
      simpl in Hadd; [|discriminate].
    injection Hadd as <-. simpl. split; [reflexivity|]. apply dom_insert_subseteq.
Qed.

End reclaim.

(** C9, at the flush of [f1]: its entry is gone and the console-log buffer
    is what it was. *)
Lemma flush_reclaims_file_entry_only_witness :
  fileMessageMap (handeUpdate Scenario.suite_only ("f1", Some Scenario.passed) Scenario.p1)
    !! "f1" = None
  ∧ testConsoleMap (handeUpdate Scenario.suite_only ("f1", Some Scenario.passed) Scenario.p1) =
      testConsoleMap Scenario.p1.
Proof.
  destruct (flush_reclaims_file_entry_only Scenario.suite_only "f1" (Some Scenario.passed)
              Scenario.p1) as (Hgone & _ & _ & Hkept & _).
  split; [|exact Hkept].
  apply Hgone; [by eexists|discriminate].
Defined.

(** C9 as stated fails: after the flush of [f1] the logs recorded for its
    test [t1] are still in the console-log buffer. *)
Lemma flush_keeps_console_logs :
  registered Scenario.f1 Scenario.p1
  ∧ testConsoleMap Scenario.p1 !! "t1" = Some [Scenario.hello]
  ∧ fileMessageMap
      (handeUpdate Scenario.suite_only ("f1", Some Scenario.passed) Scenario.p1) !! "f1" = None
  ∧ testConsoleMap
      (handeUpdate Scenario.suite_only ("f1", Some Scenario.passed) Scenario.p1) !! "t1" =
      Some [Scenario.hello].
Proof.
  split; [eexists; split; reflexivity|]. repeat split; reflexivity.
Qed.

(** ** Emission order *)

Section order.
Context `{Collaborators}.

(** A producer reads the printer through the console-log map only. *)
Lemma evalMessage_console results p p' message :
  testConsoleMap p = testConsoleMap p' →
  evalMessage results p message = evalMessage results p' message.
Proof.
  intros Hsame. destruct message as [s|test]; [reflexivity|].
  simpl. unfold callProducer, test_logs. by rewrite Hsame.
Qed.

(** Evaluating, at flush time, the messages the walker built earlier is
    traversing the tree at flush time. *)
Lemma preorder_of_messages results p task :
  ∀ messages,
    handleTask task = Normal messages →
    preorder results p task = Normal (concat (map (evalMessage results p) messages)).
Proof.
  induction task as [t|c|suite tasks IH] using Task_tree_ind; intros messages Hwalk.
  - simpl in Hwalk. injection Hwalk as <-. simpl. by rewrite app_nil_r.
  - simpl in Hwalk. by injection Hwalk as <-.
  - simpl in *. case_decide; [|by injection Hwalk as <-].
    destruct (non_null "suite.file" (suite_file suite)) as [fileId|e];
      simpl in *; [|discriminate].
    assert (∀ inner, flatMapM handleTask tasks = Normal inner →
              flatMapM (preorder results p) tasks =
                Normal (concat (map (evalMessage results p) inner))) as Hinner.
    { clear Hwalk. induction IH as [|task tasks Htask _ IHtasks]; intros inner Hin.
      - simpl in Hin. by injection Hin as <-.
      - simpl in Hin.
        destruct (handleTask task) as [here|e]; simpl in Hin; [|discriminate].
        destruct (flatMapM handleTask tasks) as [rest|e]; simpl in Hin; [|discriminate].
        injection Hin as <-. simpl.
        rewrite (Htask here eq_refl). simpl. rewrite (IHtasks rest eq_refl). simpl.
        by rewrite map_app, concat_app. }
    destruct (flatMapM handleTask tasks) as [inner|e]; simpl in Hwalk; [|discriminate].
    injection Hwalk as <-. rewrite (Hinner inner eq_refl). simpl.
    rewrite map_app, concat_app. simpl. by rewrite ?app_nil_r.
Qed.

Lemma preorder_all_of_messages results p tasks :
  ∀ inner,
    flatMapM handleTask tasks = Normal inner →
    flatMapM (preorder results p) tasks =
      Normal (concat (map (evalMessage results p) inner)).
Proof.
  induction tasks as [|task tasks IH]; intros inner Hin.
  - simpl in Hin. by injection Hin as <-.
  - simpl in Hin.
    destruct (handleTask task) as [here|e] eqn:Hhere; simpl in Hin; [|discriminate].
    destruct (flatMapM handleTask tasks) as [rest|e]; simpl in Hin; [|discriminate].
    injection Hin as <-. simpl.
    rewrite (preorder_of_messages results p task here Hhere). simpl.
    rewrite (IH rest eq_refl). simpl. by rewrite map_app, concat_app.
Qed.

Lemma preorder_file_of_messages results p file messages :
  fileMessages file = Normal messages →
  preorder_file results p file =
    Normal (concat (map (evalMessage results p) messages)).
Proof.
  unfold fileMessages, preorder_file. intros Hmsgs.
  destruct (flatMapM handleTask (file_tasks file)) as [inner|e] eqn:Hinner;
    simpl in Hmsgs; [|discriminate].
  injection Hmsgs as <-.
  rewrite (preorder_all_of_messages results p _ inner Hinner). simpl.
  rewrite map_app, concat_app. simpl. by rewrite ?app_nil_r.
Qed.

(** The task results of a run depend on its state changes only. *)
Lemma deliver_all_results events :
  ∀ w, run_results (deliver_all w events) =
         results_after (changes_of events) (run_results w).
Proof.
  induction events as [|e events IH]; intros w; [reflexivity|].
  unfold deliver_all in *. simpl. rewrite IH.
  destruct e as [testId event|taskId result]; reflexivity.
Qed.

(** The console-log map of a run depends on its console logs only. *)
Lemma deliver_all_console events :
  ∀ w, testConsoleMap (run_printer (deliver_all w events)) =
         console_after (logs_of events) (testConsoleMap (run_printer w)).
Proof.
  induction events as [|e events IH]; intros w; [reflexivity|].
  unfold deliver_all in *. simpl. rewrite IH.
  destruct e as [testId event|taskId result]; simpl.
  - reflexivity.
  - by rewrite handeUpdate_testConsoleMap.
Qed.

(** Until its terminal notification a file's entry stays as registered. *)
Lemma deliver_all_pending id events :
  before_terminal id events →
  ∀ w, fileMessageMap (run_printer (deliver_all w events)) !! id =
         fileMessageMap (run_printer w) !! id.
Proof.
  induction 1 as [|e events He _ IH]; intros w; [reflexivity|].
  unfold deliver_all in *. simpl. rewrite IH.
  destruct e as [testId event|taskId result]; simpl; [reflexivity|].
  destruct (decide (taskId = id)) as [->|Hne].
  - by rewrite handeUpdate_not_terminal by auto.
  - by rewrite handeUpdate_other by (simpl; congruence).
Qed.

Lemma before_terminal_changes id events :
  before_terminal id events ↔
  Forall (λ change, change.1 = id → ¬ terminal change.2) (changes_of events).
Proof.
  unfold before_terminal. induction events as [|e events IH]; simpl.
  - split; constructor.
  - rewrite Forall_cons, IH.
    destruct e as [testId event|taskId result]; simpl.
    + tauto.
    + by rewrite Forall_cons.
Qed.

(** C3.  Once a file is registered, let console logs and state changes
    arrive in any interleaving, none of them a terminal notification for
    the file.  The file's terminal notification then emits the pre-order
    traversal of its tree at that moment (the file's started line, each
    root task's lines in declared order, the finished line; inside a suite
    in run mode the same), and a second run that differs from the first
    only in how the two kinds of events are interleaved emits the same
    lines. *)
Theorem flush_order_is_preorder file p0 p results es1 es2 result :
  addFile file p0 = Normal p →
  same_up_to_interleaving es1 es2 →
  before_terminal (file_id file) es1 →
  terminal result →
  let w1 := deliver_all {| run_results := results; run_printer := p |} es1 in
  let w2 := deliver_all {| run_results := results; run_printer := p |} es2 in
  let notify := OnTaskStateChange (file_id file) result in
  ∃ lines,
    preorder_file (run_results (deliver w1 notify)) (run_printer w1) file = Normal lines
    ∧ console_info (run_printer (deliver w1 notify)) =
        console_info (run_printer w1) ++ lines
    ∧ console_info (run_printer (deliver w2 notify)) =
        console_info (run_printer w2) ++ lines.
Proof.
  intros Hadd [Hlogs Hchanges] Hbefore1 Hterminal w1 w2 notify.
  destruct (addFile_fileMessages _ _ _ Hadd) as [(messages & Hmsgs & Hget) _].
  assert (before_terminal (file_id file) es2) as Hbefore2.
  { apply before_terminal_changes. rewrite <- Hchanges.
    by apply before_terminal_changes. }
  destruct result as [r|]; [|done]. simpl in Hterminal.
  assert (run_results w1 = run_results w2) as Hresults.
  { unfold w1, w2. rewrite !deliver_all_results. by rewrite Hchanges. }
  assert (testConsoleMap (run_printer w1) = testConsoleMap (run_printer w2)) as Hconsole.
  { unfold w1, w2. rewrite !deliver_all_console. by rewrite Hlogs. }
  assert (fileMessageMap (run_printer w1) !! file_id file = Some messages) as Hget1.
  { unfold w1. by rewrite deliver_all_pending. }
  assert (fileMessageMap (run_printer w2) !! file_id file = Some messages) as Hget2.
  { unfold w2. by rewrite deliver_all_pending. }
  eexists. split; [by apply preorder_file_of_messages|].
  unfold notify. simpl.
  rewrite (handeUpdate_flush _ _ _ _ _ Hget1 Hterminal).
  rewrite (handeUpdate_flush _ _ _ _ _ Hget2 Hterminal). simpl.
  split; [reflexivity|]. f_equal. rewrite Hresults. f_equal.
  apply map_ext. intros message. symmetry. by apply evalMessage_console.
Qed.

End order.

(** C3, at [f1] with the test's result before or after its log: both runs
    emit the same eight lines, the traversal of the tree. *)
Lemma flush_order_is_preorder_witness :
  ∃ lines,
    preorder_file
      (run_results
         (deliver
            (deliver_all {| run_results := ∅; run_printer := Scenario.p0 |}
               Scenario.result_then_logs)
            (OnTaskStateChange "f1" (Some Scenario.passed))))
      (run_printer
         (deliver_all {| run_results := ∅; run_printer := Scenario.p0 |}
            Scenario.result_then_logs))
      Scenario.f1 = Normal lines
    ∧ console_info
        (run_printer
           (deliver
              (deliver_all {| run_results := ∅; run_printer := Scenario.p0 |}
                 Scenario.result_then_logs)
              (OnTaskStateChange "f1" (Some Scenario.passed)))) =
        console_info
          (run_printer
             (deliver_all {| run_results := ∅; run_printer := Scenario.p0 |}
                Scenario.result_then_logs)) ++ lines
    ∧ console_info
        (run_printer
           (deliver
              (deliver_all {| run_results := ∅; run_printer := Scenario.p0 |}
                 Scenario.logs_then_result)
              (OnTaskStateChange "f1" (Some Scenario.passed)))) =
        console_info
          (run_printer
             (deliver_all {| run_results := ∅; run_printer := Scenario.p0 |}
                Scenario.logs_then_result)) ++ lines.
Proof.
  apply (flush_order_is_preorder Scenario.f1 new_Printer Scenario.p0 ∅
           Scenario.result_then_logs Scenario.logs_then_result (Some Scenario.passed)).
  - reflexivity.
  - split; reflexivity.
  - repeat constructor; simpl; try discriminate. intros _ Hrun. by apply Hrun.
  - simpl. discriminate.
Defined.

(** ** The scenarios of the spec, run *)

(** One passing test of duration 5: started and finished inside the
    file's bracket. *)
Example scenario_passing_test :
  Scenario.run_of Scenario.f3 [OnTaskStateChange "t1" (Some Scenario.passed)] =
    Some [SuitMessage_started "f1" "a.test.ts";
          TestMessage_started Scenario.t1;
          TestMessage_finished Scenario.t1 5%Z;
          SuitMessage_finished "f1" "a.test.ts"].
Proof. reflexivity. Qed.

(** One skipped test: the ignored line inside the file's bracket. *)
Example scenario_skipped_test :
  Scenario.run_of Scenario.f4 [] =
    Some [SuitMessage_started "f1" "a.test.ts";
          TestMessage_ignored Scenario.t2;
          SuitMessage_finished "f1" "a.test.ts"].
Proof. reflexivity. Qed.

(** A test without any result anywhere: the missing-result failure, then
    finished with duration 0. *)
Example scenario_missing_result :
  Scenario.run_of Scenario.f3 [] =
    Some [SuitMessage_started "f1" "a.test.ts";
          TestMessage_started Scenario.t1;
          TestMessage_fail Scenario.t1 (MissingResultError Scenario.t1);
          TestMessage_finished Scenario.t1 0%Z;
          SuitMessage_finished "f1" "a.test.ts"].
Proof. reflexivity. Qed.

(** A suite that lacks its file makes the registration throw, and the
    printer keeps no entry for the file. *)
Example scenario_suite_without_file :
  addFile
    {| file_suite := Scenario.f1_suite;
       file_tasks :=
         [TaskSuite {| suite_id := "s9"; suite_name := "lost"; suite_mode := ModeRun;
                       suite_file := None |}
            [TaskTest Scenario.t1]] |}
    new_Printer = Throw (TypeError "suite.file").
Proof. reflexivity. Qed.

(** The summary of [f5] when the suite [s1] and its test [t1] failed:
    three suites with the file, one failed; four leaf tasks, one failed. *)
Example scenario_summary :
  writeSummary Scenario.suite_only (Many [file_task Scenario.f5]) =
    {| failedSuitesCount := 1;
       totalSuitesCount := 3;
       failedTestsCount := 1;
       totalTestsCount := 4;
       suiteErrors :=
         [{| suiteError_file := "math";
             suiteError_error := Some "Error: boom at a.test.ts:3" |}] |}.
Proof. reflexivity. Qed.

(** * Further properties of the printer *)

(** ** The console-log buffer *)

Lemma addTestConsoleLog_lookup id log p other :
  testConsoleMap (addTestConsoleLog id log p) !! other ?? [] =
    (testConsoleMap p !! other ?? []) ++ (if decide (id = other) then [log] else []).
Proof.
  unfold addTestConsoleLog. simpl.
  destruct (decide (id = other)) as [->|Hne].
  - destruct (testConsoleMap p !! other) as [messages|] eqn:Hget;
      by rewrite lookup_insert_eq.
  - destruct (testConsoleMap p !! id);
      rewrite lookup_insert_ne by exact Hne; by rewrite app_nil_r.
Qed.

(** X1.  After any sequence of recorded logs, the logs buffered under an
    id are the ones it had before followed by the logs recorded under that
    id, in the order they were recorded; logs recorded under other ids do
    not show up there. *)
Theorem addTestConsoleLog_arrival_order (logs : list (string * UserConsoleLog))
    (p : Printer) (id : string) :
  testConsoleMap (record_all logs p) !! id ?? [] =
    (testConsoleMap p !! id ?? []) ++ (filter (λ entry, entry.1 = id) logs).*2.
Proof.
  revert p. induction logs as [|[id' log] logs IH]; intros p.
  - simpl. by rewrite app_nil_r.
  - unfold record_all in *. simpl. rewrite IH, addTestConsoleLog_lookup.
    rewrite filter_cons. simpl.
    destruct (decide (id' = id)) as [->|Hne]; simpl.
    + by rewrite <- app_assoc.
    + by rewrite app_nil_r.
Qed.

(** X2.  Logs recorded under two different ids can be recorded in either
    order, and a log can be recorded before or after a file is registered:
    the printer ends up the same. *)
Theorem addTestConsoleLog_independent `{Collaborators} (p : Printer)
    (id1 id2 : string) (log1 log2 : UserConsoleLog) (file : File) :
  (id1 ≠ id2 →
   addTestConsoleLog id1 log1 (addTestConsoleLog id2 log2 p) =
     addTestConsoleLog id2 log2 (addTestConsoleLog id1 log1 p))
  ∧ addFile file (addTestConsoleLog id1 log1 p) =
      match addFile file p with
      | Normal p' => Normal (addTestConsoleLog id1 log1 p')
      | Throw e => Throw e
      end.
Proof.
  split.
  - intros Hne. unfold addTestConsoleLog. simpl. f_equal.
    destruct (testConsoleMap p !! id1) as [m1|] eqn:H1;
      destruct (testConsoleMap p !! id2) as [m2|] eqn:H2;
      rewrite !lookup_insert_ne by congruence; rewrite ?H1, ?H2;
      by rewrite insert_insert_ne by congruence.
  - unfold addFile.
    destruct (flatMapM handleTask (file_tasks file)) as [inner|e]; reflexivity.
Qed.

(** X2, at two logs for the tests [t1] and [t3]. *)
Lemma addTestConsoleLog_independent_witness :
  addTestConsoleLog "t1" Scenario.hello (addTestConsoleLog "t3" Scenario.hello Scenario.p0) =
    addTestConsoleLog "t3" Scenario.hello (addTestConsoleLog "t1" Scenario.hello Scenario.p0).
Proof.
  apply (addTestConsoleLog_independent Scenario.p0 "t1" "t3" Scenario.hello Scenario.hello
           Scenario.f1).
  discriminate.
Defined.

(** ** What the walker builds *)

Lemma flatMapM_elem_inv {A B} (f : A → Completion (list B)) (l : list A)
    (out : list B) (x : B) :
  flatMapM f l = Normal out →
  x ∈ out →
  ∃ y here, y ∈ l ∧ f y = Normal here ∧ x ∈ here.
Proof.
  revert out. induction l as [|y l IH]; intros out Hout Hin.
  - simpl in Hout. injection Hout as <-. by apply elem_of_nil in Hin.
  - simpl in Hout.
    destruct (f y) as [here|e] eqn:Hy; simpl in Hout; [|discriminate].
    destruct (flatMapM f l) as [rest|e]; simpl in Hout; [|discriminate].
    injection Hout as <-. apply elem_of_app in Hin as [Hin|Hin].
    + exists y, here. split; [apply list_elem_of_here|done].
    + destruct (IH rest eq_refl Hin) as (z & hz & Hz & Hfz & Hxz).
      exists z, hz. split; [by apply list_elem_of_further|done].
Qed.

Section built.
Context `{Collaborators}.

(** The walker finishes exactly on the trees whose entered suites have
    their file. *)
Lemma handleTask_has_files task :
  match handleTask task with
  | Normal _ => has_files task = true
  | Throw e => has_files task = false ∧ e = TypeError "suite.file"
  end.
Proof.
  induction task as [t|c|suite tasks IH] using Task_tree_ind; try reflexivity.
  simpl. case_decide; [|reflexivity].
  destruct (suite_file suite) as [fileId|]; simpl; [|done].
  assert (match flatMapM handleTask tasks with
          | Normal _ => forallb has_files tasks = true
          | Throw e => forallb has_files tasks = false ∧ e = TypeError "suite.file"
          end) as Hall.
  { induction IH as [|task tasks Htask _ IHtasks]; [reflexivity|]. simpl.
    destruct (handleTask task) as [here|e]; simpl.
    - rewrite Htask. simpl.
      destruct (flatMapM handleTask tasks) as [rest|e]; simpl; exact IHtasks.
    - destruct Htask as [-> ->]. done. }
  destruct (flatMapM handleTask tasks) as [inner|e]; simpl; exact Hall.
Qed.

Lemma flatMapM_handleTask_has_files tasks :
  match flatMapM handleTask tasks with
  | Normal _ => forallb has_files tasks = true
  | Throw e => forallb has_files tasks = false ∧ e = TypeError "suite.file"
  end.
Proof.
  induction tasks as [|task tasks IH]; [reflexivity|]. simpl.
  pose proof (handleTask_has_files task) as Htask.
  destruct (handleTask task) as [here|e]; simpl.
  - rewrite Htask. simpl.
    destruct (flatMapM handleTask tasks) as [rest|e]; simpl; exact IH.
  - destruct Htask as [-> ->]. done.
Qed.

(** X3.  Registering a file throws exactly when some suite the walker
    enters (in run mode, under suites in run mode) has no file: the
    exception is the TypeError of reading [suite.file!.id], and nothing is
    stored.  Otherwise the file is pending afterwards.  Suites that are
    not in run mode are never asked for their file. *)
Theorem addFile_throws_without_file file p :
  match addFile file p with
  | Normal p' =>
      forallb has_files (file_tasks file) = true
      ∧ is_Some (fileMessageMap p' !! file_id file)
  | Throw e =>
      forallb has_files (file_tasks file) = false
      ∧ e = TypeError "suite.file"
  end.
Proof.
  unfold addFile.
  pose proof (flatMapM_handleTask_has_files (file_tasks file)) as Hall.
  destruct (flatMapM handleTask (file_tasks file)) as [inner|e]; simpl; [|exact Hall].
  split; [exact Hall|]. rewrite lookup_insert_eq. by eexists.
Qed.

(** A producer among the messages of a task is the producer of a test the
    walker reached there, and that test is not skipped. *)
Lemma handleTask_producer test task :
  ∀ messages,
    handleTask task = Normal messages →
    Producer test ∈ messages →
    reaches test task ∧ test_mode test ≠ ModeSkip.
Proof.
  induction task as [t|c|suite tasks IH] using Task_tree_ind; intros messages Hwalk Hin.
  - simpl in Hwalk. injection Hwalk as <-.
    apply list_elem_of_singleton in Hin. unfold handleTest in Hin.
    destruct (decide (test_mode t = ModeSkip)) as [Hskip|Hrun]; [discriminate|].
    injection Hin as ->. split; [constructor|exact Hrun].
  - simpl in Hwalk. injection Hwalk as <-. by apply elem_of_nil in Hin.
  - simpl in Hwalk. case_decide as Hmode.
    2: { injection Hwalk as <-. by apply elem_of_nil in Hin. }
    destruct (non_null "suite.file" (suite_file suite)) as [fileId|e];
      simpl in Hwalk; [|discriminate].
    destruct (flatMapM handleTask tasks) as [inner|e] eqn:Hinner;
      simpl in Hwalk; [|discriminate].
    injection Hwalk as <-.
    apply elem_of_cons in Hin as [Hin|Hin]; [discriminate|].
    apply elem_of_app in Hin as [Hin|Hin].
    2: { apply list_elem_of_singleton in Hin. discriminate. }
    destruct (flatMapM_elem_inv _ _ _ _ Hinner Hin) as (task & here & Htask & Hhere & Hin').
    rewrite Forall_forall in IH.
    destruct (IH task Htask here Hhere Hin') as [Hreach Hrun].
    split; [|exact Hrun]. by apply (reaches_suite test suite tasks task).
Qed.

Lemma fileMessages_producer test file messages :
  fileMessages file = Normal messages →
  Producer test ∈ messages →
  Exists (reaches test) (file_tasks file) ∧ test_mode test ≠ ModeSkip.
Proof.
  unfold fileMessages. intros Hmsgs Hin.
  destruct (flatMapM handleTask (file_tasks file)) as [inner|e] eqn:Hinner;
    simpl in Hmsgs; [|discriminate].
  injection Hmsgs as <-.
  apply elem_of_cons in Hin as [Hin|Hin]; [discriminate|].
  apply elem_of_app in Hin as [Hin|Hin].
  2: { apply list_elem_of_singleton in Hin. discriminate. }
  destruct (flatMapM_elem_inv _ _ _ _ Hinner Hin) as (task & here & Htask & Hhere & Hin').
  destruct (handleTask_producer _ _ _ Hhere Hin') as [Hreach Hrun].
  split; [|exact Hrun]. apply Exists_exists. by exists task.
Qed.

(** X4.  The producers stored for a registered file are exactly those of
    the tests the walker reached that are not in mode skip: a test in mode
    skip, or under a suite that is not in run mode, never gets one. *)
Theorem addFile_producers file p p' :
  addFile file p = Normal p' →
  ∃ messages,
    fileMessageMap p' !! file_id file = Some messages
    ∧ ∀ test,
        Producer test ∈ messages
        ↔ Exists (reaches test) (file_tasks file) ∧ test_mode test ≠ ModeSkip.
Proof.
  intros Hadd.
  destruct (addFile_fileMessages _ _ _ Hadd) as [(messages & Hmsgs & Hget) _].
  exists messages. split; [exact Hget|]. intros test. split.
  - by apply fileMessages_producer.
  - intros [Hreach Hrun].
    destruct (fileMessages_reaches _ _ _ Hreach Hmsgs) as (before & after & ->).
    rewrite (handleTest_run test Hrun). set_solver.
Qed.

End built.

(** X4, at the file [f5]: its stored messages hold the producers of [t1]
    and of [t3] (mode todo). *)
Lemma addFile_producers_witness :
  ∃ messages,
    fileMessageMap Scenario.p5 !! "f1" = Some messages
    ∧ ∀ test,
        Producer test ∈ messages
        ↔ Exists (reaches test) (file_tasks Scenario.f5) ∧ test_mode test ≠ ModeSkip.
Proof.
  apply (addFile_producers Scenario.f5 new_Printer Scenario.p5). reflexivity.
Defined.

(** ** Pending files *)

Section pending.
Context `{Collaborators}.

(** X5.  Registering a file under an id that is already pending replaces
    what was pending: the printer is the one the second registration alone
    would have given. *)
Theorem addFile_replaces file file' p p1 p2 :
  addFile file p = Normal p1 →
  addFile file' p1 = Normal p2 →
  file_id file = file_id file' →
  addFile file' p = Normal p2.
Proof.
  unfold addFile. intros Hfirst Hsecond Hid.
  destruct (flatMapM handleTask (file_tasks file)) as [inner|e];
    simpl in Hfirst; [|discriminate].
  injection Hfirst as <-.
  destruct (flatMapM handleTask (file_tasks file')) as [inner'|e];
    simpl in *; [|discriminate].
  injection Hsecond as <-. rewrite Hid. by rewrite insert_insert_eq.
Qed.

(** X6.  A pending file stays pending, with the messages built for it,
    through whatever happens to other ids: a log recorded, another file
    registered, a notification for another id. *)
Theorem registered_until_own_flush file p :
  registered file p →
  (∀ id log, registered file (addTestConsoleLog id log p))
  ∧ (∀ other p', file_id other ≠ file_id file →
       addFile other p = Normal p' → registered file p')
  ∧ (∀ results id result, id ≠ file_id file →
       registered file (handeUpdate results (id, result) p))
  ∧ (∀ results result, ¬ terminal result →
       registered file (handeUpdate results (file_id file, result) p)).
Proof.
  intros (messages & Hmsgs & Hget). repeat split.
  - intros id log. by exists messages.
  - intros other p' Hne Hadd. exists messages. split; [exact Hmsgs|].
    unfold addFile in Hadd.
    destruct (flatMapM handleTask (file_tasks other)) as [inner|e];
      simpl in Hadd; [|discriminate].
    injection Hadd as <-. simpl. by rewrite lookup_insert_ne.
  - intros results id result Hne. exists messages. split; [exact Hmsgs|].
    rewrite handeUpdate_other by (simpl; congruence). exact Hget.
  - intros results result Hnot. exists messages. split; [exact Hmsgs|].
    by rewrite handeUpdate_not_terminal.
Qed.

(** X7.  Two pending files flushed one after the other both go, and the
    log gets the lines of the first followed by the lines of the second,
    each being what that file would have emitted had it been flushed
    alone at that moment. *)
Theorem flushes_compose results1 results2 id1 id2 messages1 messages2 r1 r2 p :
  id1 ≠ id2 →
  fileMessageMap p !! id1 = Some messages1 →
  fileMessageMap p !! id2 = Some messages2 →
  result_state r1 ≠ StateRun →
  result_state r2 ≠ StateRun →
  handeUpdate results2 (id2, Some r2) (handeUpdate results1 (id1, Some r1) p) =
    {| fileMessageMap := delete id2 (delete id1 (fileMessageMap p));
       testConsoleMap := testConsoleMap p;
       console_info :=
         console_info p
           ++ concat (map (evalMessage results1 p) messages1)
           ++ concat (map (evalMessage results2 p) messages2) |}.
Proof.
  intros Hne Hget1 Hget2 Hr1 Hr2.
  rewrite (handeUpdate_flush _ _ _ _ _ Hget1 Hr1).
  rewrite (handeUpdate_flush results2 id2 messages2 r2); [|by simpl; rewrite lookup_delete_ne|done].
  unfold flushed. simpl. f_equal. by rewrite <- app_assoc.
Qed.

(** X8.  A log recorded, after the registration and before the flush, for
    a test the walker reached and that is not skipped is among the lines
    the flush emits, the message builders' lines being non-empty. *)
Theorem recorded_log_is_emitted `{!TruthyMessages} file p results r test log :
  registered file p →
  Exists (reaches test) (file_tasks file) →
  test_mode test ≠ ModeSkip →
  result_state r ≠ StateRun →
  TestMessage_log test (log_type log) (log_content log)
    ∈ console_info
        (handeUpdate results (file_id file, Some r)
           (addTestConsoleLog (test_id test) log p)).
Proof.
  intros (messages & Hmsgs & Hget) Hreach Hrun Hstate.
  rewrite (handeUpdate_flush _ _ messages) by done. simpl.
  destruct (fileMessages_reaches _ _ _ Hreach Hmsgs) as (before & after & ->).
  rewrite (handleTest_run test Hrun), map_app, concat_app. simpl.
  rewrite callProducer_all_lines. unfold test_logs.
  rewrite addTestConsoleLog_lookup, decide_True by reflexivity.
  rewrite map_app. simpl.
  apply elem_of_app. right. apply elem_of_app. right.
  apply elem_of_cons. right. apply elem_of_app. left.
  apply elem_of_app. left. apply elem_of_app. right. apply list_elem_of_here.
Qed.

(** X9.  A log recorded under an id that is not the id of a reached test
    outside mode skip (a skipped test, a test under a suite that is not in
    run mode, a suite, an unknown id) changes nothing in what the file's
    flush emits: such a log is never printed. *)
Theorem unclaimed_log_is_not_emitted file p results result id log :
  registered file p →
  (∀ test, Exists (reaches test) (file_tasks file) →
           test_mode test ≠ ModeSkip → test_id test ≠ id) →
  console_info (handeUpdate results (file_id file, result) (addTestConsoleLog id log p)) =
    console_info (handeUpdate results (file_id file, result) p).
Proof.
  intros (messages & Hmsgs & Hget) Hunclaimed.
  destruct (decide (terminal result)) as [Hterminal|Hnot].
  2: { by rewrite !handeUpdate_not_terminal. }
  destruct result as [r|]; [|done]. simpl in Hterminal.
  rewrite !(handeUpdate_flush _ _ messages) by done. simpl. do 2 f_equal.
  apply map_ext_in. intros message Hin. apply list_elem_of_In in Hin.
  destruct message as [s|test]; [reflexivity|]. simpl.
  destruct (fileMessages_producer _ _ _ Hmsgs Hin) as [Hreach Hrun].
  unfold callProducer, test_logs.
  rewrite addTestConsoleLog_lookup.
  rewrite decide_False by (intros ->; by apply (Hunclaimed test)).
  by rewrite app_nil_r.
Qed.

End pending.

(** X5, at [f3] registered first and [f1] under the same id after it. *)
Lemma addFile_replaces_witness :
  addFile Scenario.f1 new_Printer = Normal Scenario.p0.
Proof.
  apply (addFile_replaces Scenario.f3 Scenario.f1 new_Printer Scenario.p3 Scenario.p0);
    reflexivity.
Defined.

(** X6, at [f1] pending: still pending after [f6] is registered. *)
Lemma registered_until_own_flush_witness :
  registered Scenario.f1 Scenario.p06
  ∧ registered Scenario.f1
      (handeUpdate ∅ ("f1", Some Scenario.running) Scenario.p0).
Proof.
  destruct (registered_until_own_flush Scenario.f1 Scenario.p0)
    as (_ & Hother & _ & Hrunning).
  - eexists. split; reflexivity.
  - split.
    + apply (Hother Scenario.f6); [discriminate|reflexivity].
    + apply Hrunning. simpl. intros Hrun. by apply Hrun.
Defined.

(** X7, at [f1] and [f6] both pending, flushed in that order. *)
Lemma flushes_compose_witness :
  console_info
    (handeUpdate ∅ ("f2", Some Scenario.passed)
       (handeUpdate Scenario.suite_only ("f1", Some Scenario.passed) Scenario.p06)) =
    [SuitMessage_started "f1" "a.test.ts";
     SuitMessage_started "f1" "math";
     TestMessage_started Scenario.t1;
     TestMessage_fail Scenario.t1 Scenario.boom;
     TestMessage_finished Scenario.t1 5%Z;
     SuitMessage_finished "f1" "math";
     SuitMessage_finished "f1" "a.test.ts";
     SuitMessage_started "f2" "b.test.ts";
     TestMessage_ignored Scenario.t2;
     SuitMessage_finished "f2" "b.test.ts"].
Proof.
  rewrite (flushes_compose Scenario.suite_only ∅ "f1" "f2" _ _
             Scenario.passed Scenario.passed Scenario.p06
             ltac:(discriminate) eq_refl eq_refl ltac:(discriminate) ltac:(discriminate)).
  reflexivity.
Defined.

(** X8, at [f1] and a log for its test [t1]. *)
Lemma recorded_log_is_emitted_witness :
  TestMessage_log Scenario.t1 Stdout "hello"
    ∈ console_info
        (handeUpdate Scenario.suite_only ("f1", Some Scenario.passed)
           (addTestConsoleLog "t1" Scenario.hello Scenario.p0)).
Proof.
  apply (recorded_log_is_emitted Scenario.f1 Scenario.p0 Scenario.suite_only
           Scenario.passed Scenario.t1 Scenario.hello).
  - eexists. split; reflexivity.
  - apply Exists_cons_hd. eapply reaches_suite.
    + reflexivity.
    + apply list_elem_of_here.
    + apply reaches_test.
  - discriminate.
  - discriminate.
Defined.

(** X9, at [f3] and a log recorded under the id of a test it does not
    hold. *)
Lemma unclaimed_log_is_not_emitted_witness :
  console_info
    (handeUpdate ∅ ("f1", Some Scenario.passed)
       (addTestConsoleLog "t2" Scenario.hello Scenario.p3)) =
  console_info (handeUpdate ∅ ("f1", Some Scenario.passed) Scenario.p3).
Proof.
  apply (unclaimed_log_is_not_emitted Scenario.f3 Scenario.p3 ∅ (Some Scenario.passed)
           "t2" Scenario.hello).
  - eexists. split; reflexivity.
  - intros test Hreach _. simpl in Hreach.
    apply Exists_cons in Hreach as [Hreach|Hreach].
    + inversion Hreach. discriminate.
    + by apply Exists_nil in Hreach.
Defined.

(** ** More on the summary *)

Lemma filter_nil_iff {A} (P : A → Prop) `{!∀ x, Decision (P x)} (l : list A) :
  filter P l = [] ↔ ∀ x, x ∈ l → ¬ P x.
Proof.
  induction l as [|y l IH].
  - split; [|reflexivity]. intros _ x Hin. by apply elem_of_nil in Hin.
  - rewrite filter_cons. destruct (decide (P y)) as [Hy|Hy].
    + split; [discriminate|]. intros Hall. exfalso.
      apply (Hall y); [apply list_elem_of_here|exact Hy].
    + rewrite IH. split.
      * intros Hall x Hin. apply elem_of_cons in Hin as [->|Hin]; [exact Hy|by apply Hall].
      * intros Hall x Hin. apply Hall. by apply list_elem_of_further.
Qed.

Lemma flat_map_nil_iff {A B} (f : A → list B) (l : list A) :
  flat_map f l = [] ↔ ∀ x, x ∈ l → f x = [].
Proof.
  induction l as [|y l IH]; simpl.
  - split; [|reflexivity]. intros _ x Hin. by apply elem_of_nil in Hin.
  - split.
    + intros Hnil. apply app_eq_nil in Hnil as [Hy Hl].
      intros x Hin. apply elem_of_cons in Hin as [->|Hin]; [exact Hy|].
      by apply IH.
    + intros Hall. rewrite (Hall y) by apply list_elem_of_here. simpl.
      apply IH. intros x Hin. apply Hall. by apply list_elem_of_further.
Qed.

Lemma suites_and_leaves (l : list Task) :
  length (filter is_suite l) + length (filter is_leaf l) = length l.
Proof.
  induction l as [|task l IH]; [reflexivity|].
  rewrite !filter_cons. destruct task as [t|c|suite tasks]; simpl; lia.
Qed.

(** The entries of the summary, without the guard on the number of failed
    suites. *)
Lemma suiteErrors_entries results files :
  suiteErrors (writeSummary results files) =
    flat_map
      (λ suite,
         map (λ error, {| suiteError_file := task_name suite;
                          suiteError_error := error_stack error |})
             (result_errors_of results (task_id suite) ?? []))
      (filter (has_errors results) (getSuites files)).
Proof.
  unfold writeSummary. simpl. case_decide as Hlen; [reflexivity|].
  destruct (filter (has_errors results) (getSuites files)) as [|suite suites];
    [reflexivity|].
  simpl in Hlen. lia.
Qed.

(** X10.  Every task of the trees is counted once, as a suite or as a
    test: the two totals add up to the number of tasks, and a failed count
    never exceeds its total. *)
Theorem writeSummary_totals (results : Results) (files : Arrayable Task) :
  (totalSuitesCount (writeSummary results files)
     + totalTestsCount (writeSummary results files))%nat =
    length (flat_map tasks_of (toArray files))
  ∧ (failedSuitesCount (writeSummary results files)
       ≤ totalSuitesCount (writeSummary results files))%nat
  ∧ (failedTestsCount (writeSummary results files)
       ≤ totalTestsCount (writeSummary results files))%nat.
Proof.
  unfold writeSummary. simpl. split; [|split].
  - rewrite getSuites_tasks_of, getTests_tasks_of. apply suites_and_leaves.
  - apply length_filter.
  - apply length_filter.
Qed.

(** X11.  failedSuitesCount is 0 exactly when no suite's result has an
    errors array; failedTestsCount is 0 exactly when no test's or custom
    task's result is in state fail; suiteErrors is empty exactly when no
    suite's result has an error in its array, which an empty array allows
    while the suite is counted as failed. *)
Theorem writeSummary_no_failures (results : Results) (files : Arrayable Task) :
  (failedSuitesCount (writeSummary results files) = 0
   ↔ ∀ task, task ∈ flat_map tasks_of (toArray files) →
             is_suite task → result_errors_of results (task_id task) = None)
  ∧ (failedTestsCount (writeSummary results files) = 0
     ↔ ∀ task, task ∈ flat_map tasks_of (toArray files) →
               is_leaf task → ¬ state_is_fail results task)
  ∧ (suiteErrors (writeSummary results files) = []
     ↔ ∀ task, task ∈ flat_map tasks_of (toArray files) →
               is_suite task → ¬ carries_an_error results task).
Proof.
  split; [|split].
  - unfold writeSummary. simpl. rewrite getSuites_tasks_of.
    rewrite length_zero_iff_nil, filter_nil_iff. split.
    + intros Hall task Hin Hsuite.
      destruct (result_errors_of results (task_id task)) as [es|] eqn:Hes; [|reflexivity].
      exfalso. apply (Hall task).
      * apply list_elem_of_filter. by split.
      * unfold has_errors. rewrite Hes. by eexists.
    + intros Hall task Hin [es Hes].
      apply list_elem_of_filter in Hin as [Hsuite Hin].
      rewrite (Hall task Hin Hsuite) in Hes. discriminate.
  - unfold writeSummary. simpl. rewrite getTests_tasks_of.
    rewrite length_zero_iff_nil, filter_nil_iff. split.
    + intros Hall task Hin Hleaf. apply Hall. apply list_elem_of_filter. by split.
    + intros Hall task Hin. apply list_elem_of_filter in Hin as [Hleaf Hin].
      by apply Hall.
  - rewrite suiteErrors_entries, getSuites_tasks_of, flat_map_nil_iff. split.
    + intros Hall task Hin Hsuite (e & es & Hes).
      assert (task ∈ filter (has_errors results)
                        (filter is_suite (flat_map tasks_of (toArray files)))) as Hfailed.
      { apply list_elem_of_filter. split.
        - unfold has_errors. rewrite Hes. by eexists.
        - apply list_elem_of_filter. by split. }
      specialize (Hall task Hfailed). rewrite Hes in Hall. discriminate.
    + intros Hall task Hin.
      apply list_elem_of_filter in Hin as [[es Hes] Hin].
      apply list_elem_of_filter in Hin as [Hsuite Hin].
      rewrite Hes. destruct es as [|e es]; [reflexivity|].
      exfalso. apply (Hall task Hin Hsuite). by exists e, es.
Qed.

(** ** More on the errors of a test *)

Section reported.
Context `{Collaborators}.

(** X12.  As long as none of the test's, its suite's and its file's
    results has an empty errors array, a test is given at least one error;
    if it failed and is not skipped, the flush prints a failure line for
    one of them, the message builders' lines being non-empty. *)
Theorem failing_test_reports_an_error `{!TruthyMessages} results p test :
  result_errors_of results (test_id test) ≠ Some [] →
  result_errors_of results (test_suite test) ≠ Some [] →
  test_file test ≫= result_errors_of results ≠ Some [] →
  getTestErrors results test ≠ []
  ∧ (test_mode test ≠ ModeSkip →
     test_fail results test = true →
     ∃ error,
       error ∈ getTestErrors results test
       ∧ TestMessage_fail test error ∈ test_lines results p test).
Proof.
  intros Hown Hsuite Hfile.
  assert (getTestErrors results test ≠ []) as Hsome.
  { unfold getTestErrors.
    destruct (result_errors_of results (test_id test)) as [own|]; simpl; [congruence|].
    destruct (result_errors_of results (test_suite test)) as [es|]; simpl; [congruence|].
    destruct (test_file test ≫= result_errors_of results) as [es|]; simpl;
      [congruence|discriminate]. }
  split; [exact Hsome|]. intros Hrun Hfail.
  destruct (getTestErrors results test) as [|error errors] eqn:Herrors; [done|].
  exists error. split; [apply list_elem_of_here|].
  rewrite test_lines_run by exact Hrun. rewrite Hfail, Herrors. simpl.
  apply elem_of_cons. right. apply elem_of_app. right. apply list_elem_of_here.
Qed.

End reported.

(** X12, at a failing test that takes its suite's error. *)
Lemma failing_test_reports_an_error_witness :
  getTestErrors Scenario.suite_only Scenario.t1 ≠ []
  ∧ ∃ error,
      error ∈ getTestErrors Scenario.suite_only Scenario.t1
      ∧ TestMessage_fail Scenario.t1 error
          ∈ test_lines Scenario.suite_only Scenario.p1 Scenario.t1.
Proof.
  destruct (failing_test_reports_an_error Scenario.suite_only Scenario.p1 Scenario.t1)
    as [Hsome Hline]; try discriminate.
  split; [exact Hsome|]. apply Hline; [discriminate|reflexivity].
Defined.

(** ** Order of the collected tasks, and what a test's lines read *)

(** X13.  [getSuites] returns the suites of the trees and [getTests] their
    tests and custom tasks, each list in tree order (a parent before its
    children, children in declared order) and each task as often as it
    occurs; the inner loop of [getTests], which pushes a suite's atomic
    children itself, collects what the plain recursion would. *)
Theorem getSuites_getTests_in_tree_order (files : Arrayable Task) :
  getSuites files = filter is_suite (flat_map tasks_of (toArray files))
  ∧ getTests files = filter is_leaf (flat_map tasks_of (toArray files))
  ∧ ∀ suite tasks,
      getTests (One (TaskSuite suite tasks)) = getTests (Many tasks)
      ∧ getSuites (One (TaskSuite suite tasks)) =
          TaskSuite suite tasks :: getSuites (Many tasks).
Proof.
  split; [apply getSuites_tasks_of|]. split; [apply getTests_tasks_of|].
  intros suite tasks. split.
  - rewrite !getTests_tasks_of. simpl. by rewrite app_nil_r.
  - unfold getSuites. simpl. by rewrite app_nil_r.
Qed.

Section reads.
Context `{Collaborators}.

(** X14.  The lines of a test read the results of three task objects
    only: the test, its suite and its file.  Assigning or clearing the
    result of any other task leaves them as they are. *)
Theorem test_lines_read_own_chain results p test id r :
  id ≠ test_id test →
  id ≠ test_suite test →
  test_file test ≠ Some id →
  test_lines (<[id := r]> results) p test = test_lines results p test
  ∧ test_lines (delete id results) p test = test_lines results p test.
Proof.
  intros Hown Hsuite Hfile.
  assert (test_file test ≫= result_errors_of (<[id := r]> results) =
          test_file test ≫= result_errors_of results) as Hins.
  { destruct (test_file test) as [file|]; [|reflexivity]. simpl.
    unfold result_errors_of. rewrite lookup_insert_ne by congruence. reflexivity. }
  assert (test_file test ≫= result_errors_of (delete id results) =
          test_file test ≫= result_errors_of results) as Hdel.
  { destruct (test_file test) as [file|]; [|reflexivity]. simpl.
    unfold result_errors_of. rewrite lookup_delete_ne by congruence. reflexivity. }
  unfold test_lines, handleTest.
  destruct (decide (test_mode test = ModeSkip)); [done|]. simpl.
  unfold callProducer, test_fail, getTestErrors, result_duration_of.
  rewrite Hins, Hdel. unfold result_errors_of.
  rewrite !lookup_insert_ne, !lookup_delete_ne by congruence. done.
Qed.

End reads.

(** X14, at the test [t1] and a result assigned to the test [t3]. *)
Lemma test_lines_read_own_chain_witness :
  test_lines (<["t3" := Scenario.passed]> Scenario.suite_only) Scenario.p1 Scenario.t1 =
    test_lines Scenario.suite_only Scenario.p1 Scenario.t1
  ∧ test_lines (delete "t3" Scenario.suite_only) Scenario.p1 Scenario.t1 =
      test_lines Scenario.suite_only Scenario.p1 Scenario.t1.
Proof.
  apply (test_lines_read_own_chain Scenario.suite_only Scenario.p1 Scenario.t1 "t3"
           Scenario.passed); discriminate.
Defined.
